(** * bilibili/dynamic.ts: normalisation of a user's activity feed

    A shallow embedding of [lib/routes/bilibili/dynamic.ts].  The route
    receives weakly typed JSON, so the embedding starts from a datatype of
    JavaScript values and the handful of JavaScript operations the handler
    uses on them ([||], [&&], [+], member access, template literals), with
    exceptions made explicit. *)

From Stdlib Require Import ZArith List String Ascii Bool Lia DecimalString.
Import ListNotations.
Open Scope string_scope.
Set Warnings "-register-all".

(** ** Exceptions *)

Inductive JsError : Type :=
| TypeError     (* member access on undefined/null, call of a missing method *)
| SyntaxError   (* JSON or RegExp source that does not parse *)
| Rejected      (* a rejected promise of an external collaborator *)
| Unmodelled.   (* no exception of JavaScript: the input leaves the fragment
                   of the language that is modelled here, see [indexed] *)

Inductive Res (A : Type) : Type :=
| Ok (a : A)
| Err (e : JsError).
Arguments Ok {A} a.
Arguments Err {A} e.

Definition bind {A B} (r : Res A) (k : A -> Res B) : Res B :=
  match r with
  | Ok a => k a
  | Err e => Err e
  end.

Notation "x <- r ;; k" := (bind r (fun x => k))
  (at level 61, r at next level, right associativity).
Notation "' pat <- r ;; k" := (bind r (fun x => match x with pat => k end))
  (at level 61, pat pattern, r at next level, right associativity).

Definition is_ok {A} (r : Res A) : bool :=
  match r with Ok _ => true | Err _ => false end.

Fixpoint mapM {A B} (f : A -> Res B) (l : list A) : Res (list B) :=
  match l with
  | [] => Ok []
  | a :: l' => b <- f a ;; bs <- mapM f l' ;; Ok (b :: bs)
  end.

(** ** JavaScript values

    [JNum z] is an integer JSON number of magnitude below 10^21.
    json-bigint keeps a number written with more than fifteen characters as a
    BigNumber object, see [is_big]; such an object is truthy, prints in
    positional decimal and turns into that string under [+], which is all the
    handler observes of it, so both kinds are one constructor.  [JNaN] is not
    JSON but is what [undefined + undefined] evaluates to.  An object is the
    list of its own properties in insertion order; json-bigint builds its
    objects without a prototype, so that they have no other properties and
    no [toString].  Strings are UTF-8. *)

Inductive JV : Type :=
| JUndef
| JNull
| JNaN
| JBool (b : bool)
| JNum (z : Z)
| JStr (s : string)
| JArr (l : list JV)
| JObj (fields : list (string * JV)).

Definition dq : string := String (ascii_of_nat 34) "".
Definition bs : string := String (ascii_of_nat 92) "".
Definition cr : ascii := ascii_of_nat 13.
Definition lf : ascii := ascii_of_nat 10.

Definition Z_to_string (z : Z) : string := NilZero.string_of_int (Z.to_int z).

Fixpoint join (sep : string) (l : list string) : string :=
  match l with
  | [] => ""
  | [s] => s
  | s :: l' => s ++ sep ++ join sep l'
  end.

(** ToString, as a template literal [`${v}`], the operator [+] and a string
    argument apply it, throws a TypeError on an object, which has no
    [toString], and on an array that holds one, since [join] prints every
    element. *)
Fixpoint printable (v : JV) : bool :=
  match v with
  | JObj _ => false
  | JArr l => forallb printable l
  | _ => true
  end.

(** The text ToString gives for a value that can be printed. *)
Fixpoint text_of (v : JV) : string :=
  match v with
  | JUndef => "undefined"
  | JNull => "null"
  | JNaN => "NaN"
  | JBool true => "true"
  | JBool false => "false"
  | JNum z => Z_to_string z
  | JStr s => s
  | JArr l =>
      join "," (map (fun e => match e with
                              | JUndef | JNull => ""
                              | _ => text_of e
                              end) l)
  | JObj _ => ""
  end.

(** The outcome of an expression that prints [values] on its way to
    [result]: a template literal with these substitutions, a sum of these
    operands. *)
Definition printed {A} (values : list JV) (result : A) : Res A :=
  if forallb printable values then Ok result else Err TypeError.

(** ToBoolean. *)
Definition truthy (v : JV) : bool :=
  match v with
  | JUndef | JNull | JNaN => false
  | JBool b => b
  | JNum z => negb (Z.eqb z 0)
  | JStr s => negb (String.eqb s "")
  | JArr _ | JObj _ => true
  end.

Definition nullish (v : JV) : bool :=
  match v with
  | JUndef | JNull => true
  | _ => false
  end.

Fixpoint lookup (k : string) (fields : list (string * JV)) : JV :=
  match fields with
  | [] => JUndef
  | (k', v) :: rest => if String.eqb k k' then v else lookup k rest
  end.

(** [s.length]: the number of UTF-16 code units of a UTF-8 encoded string,
    one per character and two for a character outside the basic plane (a
    four-byte sequence). *)
Fixpoint utf16_length (s : string) : nat :=
  match s with
  | EmptyString => 0
  | String c r =>
      let n := nat_of_ascii c in
      ((if (n <? 128) || (192 <=? n) then 1 else 0)
       + (if 240 <=? n then 1 else 0) + utf16_length r)%nat
  end.

Definition is_big (z : Z) : bool := (15 <? String.length (Z_to_string z))%nat.

(** [v?.k]: the value of property [k], [undefined] when [v] is nullish.
    None of the property names the handler reads is a method of a string,
    an array or a number, so only [length] is defined on those. *)
Definition optprop (v : JV) (k : string) : JV :=
  match v with
  | JObj fields => lookup k fields
  | JArr l => if String.eqb k "length" then JNum (Z.of_nat (List.length l)) else JUndef
  | JStr s => if String.eqb k "length" then JNum (Z.of_nat (utf16_length s)) else JUndef
  | _ => JUndef
  end.

(** [v.k]: throws on a nullish [v]. *)
Definition prop (v : JV) (k : string) : Res JV :=
  if nullish v then Err TypeError else Ok (optprop v k).

Notation "v ~> k" := (prop v k) (at level 40, left associativity).
Notation "r ~>> k" := (bind r (fun v => prop v k)) (at level 40, left associativity).

(** [a || b] and [a && b]; the right operand is only used when the left one
    does not decide. *)
Definition por (a b : Res JV) : Res JV :=
  v <- a ;; if truthy v then Ok v else b.

Definition pand (a b : Res JV) : Res JV :=
  v <- a ;; if truthy v then b else Ok v.

Notation "a <||> b" := (por a b) (at level 52, left associativity).
Notation "a <&&> b" := (pand a b) (at level 51, left associativity).

(** ToPrimitive, ToNumber and the [+] operator, on operands that can be
    printed; [padd] is the operator itself. *)
Definition to_prim (v : JV) : JV :=
  match v with
  | JArr _ | JObj _ => JStr (text_of v)
  | JNum z => if is_big z then JStr (Z_to_string z) else v
  | _ => v
  end.

Definition to_number (v : JV) : option Z :=
  match v with
  | JNull => Some 0%Z
  | JBool true => Some 1%Z
  | JBool false => Some 0%Z
  | JNum z => Some z
  | _ => None
  end.

Definition js_add (a b : JV) : JV :=
  match to_prim a, to_prim b with
  | JStr s, q => JStr (s ++ text_of q)
  | p, JStr s => JStr (text_of p ++ s)
  | p, q =>
      match to_number p, to_number q with
      | Some x, Some y => JNum (x + y)
      | _, _ => JNaN
      end
  end.

Definition padd (a b : Res JV) : Res JV :=
  x <- a ;; y <- b ;; printed [x; y] (js_add x y).

(** A byte that continues a UTF-8 sequence, a string with a character
    outside the basic plane (a four-byte sequence, two UTF-16 code units),
    and the characters of a string. *)
Definition continuation (c : ascii) : bool :=
  (128 <=? nat_of_ascii c)%nat && (nat_of_ascii c <? 192)%nat.

Fixpoint astral (s : string) : bool :=
  match s with
  | EmptyString => false
  | String c r => (240 <=? nat_of_ascii c)%nat || astral r
  end.

Fixpoint characters (s : string) : list string :=
  match s with
  | EmptyString => []
  | String c r =>
      let rest := characters r in
      match r with
      | String c' _ =>
          if continuation c'
          then match rest with
               | first :: others => String c first :: others
               | [] => [String c ""]
               end
          else String c "" :: rest
      | EmptyString => [String c ""]
      end
  end.

(** The elements visited by [for (let i = 0; i < v.length; i++) ... v[i]].
    An array gives its elements and a string its code units, which are its
    characters when all lie in the basic plane.  A number or a boolean has
    no [length]: the loop body never runs.  An object is asked for its own
    [length], which is compared as a number, and for the properties named by
    the indices below it.  A [length] held as text or as an array, whose
    conversion to a number is not modelled, and a string with a character
    outside the basic plane, half of which is no string here, are left
    out. *)
Definition indexed (v : JV) : Res (list JV) :=
  match v with
  | JUndef | JNull => Err TypeError
  | JArr l => Ok l
  | JObj fields =>
      match lookup "length" fields with
      | JUndef | JNull | JNaN | JBool false => Ok []
      | JBool true => Ok [lookup "0" fields]
      | JNum n =>
          if is_big n then Err Unmodelled
          else Ok (map (fun i => lookup (Z_to_string (Z.of_nat i)) fields)
                       (seq 0 (Z.to_nat n)))
      | JStr "" => Ok []
      | JStr _ | JArr _ => Err Unmodelled
      | JObj _ => Err TypeError
      end
  | JStr s => if astral s then Err Unmodelled else Ok (map JStr (characters s))
  | JNaN | JBool _ | JNum _ => Ok []
  end.

(** The elements visited by [for (const x of v)]: only arrays and strings
    are iterable, a string by its characters. *)
Definition iterate (v : JV) : Res (list JV) :=
  match v with
  | JArr l => Ok l
  | JStr s => Ok (map JStr (characters s))
  | _ => Err TypeError
  end.

(** [s.replaceAll('\r\n', '<br>')] and [s.replaceAll('\n', '<br>')]. *)
Fixpoint crlf_to_br (s : string) : string :=
  match s with
  | EmptyString => EmptyString
  | String c r =>
      match r with
      | String c' r' =>
          if Ascii.eqb c cr && Ascii.eqb c' lf
          then "<br>" ++ crlf_to_br r'
          else String c (crlf_to_br r)
      | EmptyString => String c EmptyString
      end
  end.

Fixpoint lf_to_br (s : string) : string :=
  match s with
  | EmptyString => EmptyString
  | String c r =>
      if Ascii.eqb c lf then "<br>" ++ lf_to_br r else String c (lf_to_br r)
  end.

(** [s.replace(/^http:/, 'https:')]. *)
Definition force_https (s : string) : string :=
  if String.prefix "http:" s
  then "https:" ++ String.substring 5 (String.length s - 5) s
  else s.

(** ** Field extractors (dynamic.ts, lines 139-175) *)

(** [getTitle = (data) => (data ? data.title || data.description ||
    data.content || (data.vest && data.vest.content) || '' : '')] *)
Definition getTitle (data : JV) : Res JV :=
  if truthy data then
    data ~> "title" <||> data ~> "description" <||> data ~> "content"
      <||> (data ~> "vest" <&&> data ~> "vest" ~>> "content")
      <||> Ok (JStr "")
  else Ok (JStr "").

(** [`<br>${data.sketch.title}<br>${data.sketch.desc_text}`] *)
Definition sketch_suffix (data : JV) : Res JV :=
  t <- data ~> "sketch" ~>> "title" ;;
  d <- data ~> "sketch" ~>> "desc_text" ;;
  printed [t; d] (JStr ("<br>" ++ text_of t ++ "<br>" ++ text_of d)).

(** [getDes = (data) => data.dynamic || data.desc || data.description ||
    data.content || data.summary || (data.vest && data.vest.content) +
    (data.sketch && `<br>...`) || data.intro || ''] *)
Definition getDes (data : JV) : Res JV :=
  data ~> "dynamic" <||> data ~> "desc" <||> data ~> "description"
    <||> data ~> "content" <||> data ~> "summary"
    <||> padd (data ~> "vest" <&&> data ~> "vest" ~>> "content")
              (data ~> "sketch" <&&> sketch_suffix data)
    <||> data ~> "intro" <||> Ok (JStr "").

(** [getOriginDes = (data) => (data && (data.apiSeasonInfo &&
    data.apiSeasonInfo.title && `//转发自: ${data.apiSeasonInfo.title}`) +
    (data.index_title && `<br>${data.index_title}`)) || ''] *)
Definition getOriginDes (data : JV) : Res JV :=
  (Ok data <&&>
     padd (data ~> "apiSeasonInfo" <&&> data ~> "apiSeasonInfo" ~>> "title"
             <&&> (t <- data ~> "apiSeasonInfo" ~>> "title" ;;
                   printed [t] (JStr ("//转发自: " ++ text_of t))))
          (data ~> "index_title"
             <&&> (t <- data ~> "index_title" ;;
                   printed [t] (JStr ("<br>" ++ text_of t)))))
  <||> Ok (JStr "").

(** [getOriginName = (data) => data.uname || (data.author &&
    data.author.name) || (data.upper && data.upper.name) || (data.user &&
    (data.user.uname || data.user.name)) || (data.owner && data.owner.name)
    || ''] *)
Definition getOriginName (data : JV) : Res JV :=
  data ~> "uname"
    <||> (data ~> "author" <&&> data ~> "author" ~>> "name")
    <||> (data ~> "upper" <&&> data ~> "upper" ~>> "name")
    <||> (data ~> "user"
            <&&> (data ~> "user" ~>> "uname" <||> data ~> "user" ~>> "name"))
    <||> (data ~> "owner" <&&> data ~> "owner" ~>> "name")
    <||> Ok (JStr "").

(** [getOriginTitle = (data) => (data.title ? `${data.title}<br>` : '')] *)
Definition getOriginTitle (data : JV) : Res string :=
  t <- data ~> "title" ;;
  if truthy t then printed [t] (text_of t ++ "<br>") else Ok "".

(** [`<img src="${src}">`], for a source that can be printed, and the
    template literal itself. *)
Definition img_tag (src : JV) : string :=
  "<img src=" ++ dq ++ text_of src ++ dq ++ ">".

Definition img (src : JV) : Res string := printed [src] (img_tag src).

Definition concat_str (l : list string) : string :=
  fold_right String.append "" l.

(** [getImgs]: pictures, article covers, video cover, generic cover, campaign
    cover, each checked on its own. *)
Definition getImgs (data : JV) : Res string :=
  pictures <- data ~> "pictures" ;;
  imgs1 <- (if truthy pictures then
              l <- indexed pictures ;;
              tags <- mapM (fun p => s <- p ~> "img_src" ;; img s) l ;;
              Ok (concat_str tags)
            else Ok "") ;;
  image_urls <- data ~> "image_urls" ;;
  imgs2 <- (if truthy image_urls then
              l <- indexed image_urls ;;
              tags <- mapM img l ;;
              Ok (concat_str tags)
            else Ok "") ;;
  pic <- data ~> "pic" ;;
  imgs3 <- (if truthy pic then img pic else Ok "") ;;
  cover <- data ~> "cover" ;;
  imgs4 <- (if truthy cover then
              unclipped <- cover ~> "unclipped" ;;
              if truthy unclipped then img unclipped else img cover
            else Ok "") ;;
  sketch <- data ~> "sketch" ;;
  imgs5 <- (if truthy sketch then
              cover_url <- sketch ~> "cover_url" ;;
              if truthy cover_url then img cover_url else Ok ""
            else Ok "") ;;
  Ok (imgs1 ++ imgs2 ++ imgs3 ++ imgs4 ++ imgs5).

(** ** Emoji substitution (lines 215-223) *)

(** [`\\${text}`.replaceAll(/\\?/g, '\\?')].  The pattern [/\\?/] is an
    optional backslash, so it matches at every position of the subject, that
    is before every UTF-16 code unit and at the end: a backslash is consumed
    and replaced by [\?]; before any other character, and at the end, the
    empty match inserts [\?].  A character of the basic plane is one code
    unit, so nothing is inserted before the bytes that continue it. *)
Fixpoint escape_optional_backslash (s : string) : string :=
  match s with
  | EmptyString => bs ++ "?"
  | String c r =>
      if Ascii.eqb c (ascii_of_nat 92)
      then bs ++ "?" ++ escape_optional_backslash r
      else if continuation c
      then String c (escape_optional_backslash r)
      else bs ++ "?" ++ String c (escape_optional_backslash r)
  end.

(** The source of the pattern and the replacement text of lines 219-220, for
    a token and a URL that can be printed. *)
Definition emoji_pattern (text : JV) : string :=
  escape_optional_backslash (bs ++ text_of text).

Definition emoji_img (text url : JV) : string :=
  "<img alt=" ++ dq ++ text_of text ++ dq
    ++ " src=" ++ dq ++ text_of url ++ dq
    ++ "style=" ++ dq
    ++ "margin: -1px 1px 0px; display: inline-block; width: 20px; height: 20px; vertical-align: text-bottom;"
    ++ dq ++ " title=" ++ dq ++ dq
    ++ " referrerpolicy=" ++ dq ++ "no-referrer" ++ dq ++ ">".

(** ** Link lines (lines 224-261) *)

Definition anchor (label : string) (url : JV) : string :=
  "<br>" ++ label ++ "：<a href=" ++ text_of url ++ ">" ++ text_of url ++ "</a>".

Definition jor (a b : JV) : JV := if truthy a then a else b.

(** One normalised feed item; [pubDate] is [None] for JavaScript's [null]. *)
Record Item (Date : Type) : Type := mkItem {
  title : JV;
  description : string;
  pubDate : option Date;
  link : JV;
  author : JV
}.
Arguments mkItem {Date}.
Arguments title {Date}.
Arguments description {Date}.
Arguments pubDate {Date}.
Arguments link {Date}.
Arguments author {Date}.

(** ** The cookie (lines 119-122) *)

(** [Object.values(config.bilibili.cookies).find(Boolean)], on the values in
    the order [Object.values] lists them; [None] is the [Error] thrown when
    [!cookie]. *)
Definition select_cookie (cookies : list JV) : option JV :=
  match find truthy cookies with
  | Some cookie => if truthy cookie then Some cookie else None
  | None => None
  end.

(** ** The handler (lines 110-290) *)

Module Dynamic.

Section Handler.

(** Collaborators that live outside this file: the JSON parser, the
    global [unescape], the regular-expression engine, the embed snippet of
    [./utils], the article fetch of [./cache] and the date parser.
    [regexp_replaceAll source] is [new RegExp(source, 'g')], which throws on
    a source that is no pattern, and gives the function
    [subject.replaceAll(regexp, replacement)] of the subject and the
    replacement. *)
Variable JSONbig_parse : JV -> Res JV.
Variable unescape : string -> string.
Variable regexp_replaceAll : string -> Res (string -> string -> Res string).
Variable utils_iframe : JV -> Res string.
Variable getArticleDataFromCvid : JV -> string -> Res JV.
Variable Date : Type.
Variable parseDate : JV -> Res Date.

(** Request parameters (lines 111-117). *)
Variable uid : string.
Variables showEmoji disableEmbed displayArticle useAvid directLink : bool.

(** [getIframe = (data) => (!disableEmbed && data && data.aid ?
    `<br><br>${utils.iframe(data.aid)}<br>` : '')] *)
Definition getIframe (data : JV) : Res string :=
  if disableEmbed then Ok ""
  else if truthy data then
    aid <- data ~> "aid" ;;
    if truthy aid then
      frame <- utils_iframe aid ;;
      Ok ("<br><br>" ++ frame ++ "<br>")
    else Ok ""
  else Ok "".

(** The emoji loop: one global regular-expression replacement per entry of
    the table, in table order.  The pattern is built before the replacement
    text is.  A token with a character outside the basic plane gets [\?]
    between the two halves of that character and is left out. *)
Fixpoint substituteEmoji (emoji : list JV) (data_content : string) : Res string :=
  match emoji with
  | [] => Ok data_content
  | e :: rest =>
      text <- e ~> "text" ;;
      source <- printed [text] (emoji_pattern text) ;;
      replaceAll <- (if astral (text_of text) then Err Unmodelled
                     else regexp_replaceAll source) ;;
      url <- e ~> "url" ;;
      replacement <- printed [text; url] (emoji_img text url) ;;
      replaced <- replaceAll data_content replacement ;;
      substituteEmoji rest replaced
  end.

(** [getUrl] closes over the entry [item] and assigns the variable [link]
    of the enclosing callback; here [link] goes in and comes out.  Every
    branch prints its URL into the anchor line. *)
Definition getUrl (item data link : JV) : Res (string * JV) :=
  let resolved (label : string) (url : JV) :=
    printed [url] (anchor label url, if directLink then url else link) in
  if negb (truthy data) then Ok ("", link) else
  aid <- data ~> "aid" ;;
  if truthy aid then
    id <- (if useAvid then printed [aid] (JStr ("av" ++ text_of aid))
           else Ok (jor (optprop (optprop item "desc") "bvid")
                        (optprop (optprop (optprop item "desc") "origin") "bvid"))) ;;
    url <- printed [id] (JStr ("https://www.bilibili.com/video/" ++ text_of id)) ;;
    resolved "视频地址" url
  else
  image_urls <- data ~> "image_urls" ;;
  if truthy image_urls then
    id <- data ~> "id" ;;
    url <- printed [id] (JStr ("https://www.bilibili.com/read/cv" ++ text_of id)) ;;
    resolved "专栏地址" url
  else
  upper <- data ~> "upper" ;;
  if truthy upper then
    id <- data ~> "id" ;;
    url <- printed [id] (JStr ("https://www.bilibili.com/audio/au" ++ text_of id)) ;;
    resolved "音频地址" url
  else
  roomid <- data ~> "roomid" ;;
  if truthy roomid then
    url <- printed [roomid] (JStr ("https://live.bilibili.com/" ++ text_of roomid)) ;;
    resolved "直播间地址" url
  else
  sketch <- data ~> "sketch" ;;
  if truthy sketch then
    target_url <- sketch ~> "target_url" ;;
    resolved "活动地址" target_url
  else
  url <- data ~> "url" ;;
  if truthy url then resolved "地址" url
  else Ok ("", link).

(** Lines 179-182: the payload the extractors run on, and the origin. *)
Definition select_data (parsed : JV) : Res JV :=
  nested <- parsed ~> "item" ;;
  t <- getTitle nested ;;
  Ok (if truthy t then nested else parsed).

Definition parse_origin (parsed : JV) : Res JV :=
  o <- parsed ~> "origin" ;;
  if truthy o then JSONbig_parse o else Ok JNull.

(** [origin.item || origin] *)
Definition origin_payload (origin : JV) : Res JV :=
  origin ~> "item" <||> Ok origin.

(** The [<video>] element of line 195, from the fields of a payload that
    can be printed. *)
Definition video_tag (data : JV) : string :=
  "<video width=" ++ dq ++ text_of (optprop data "width") ++ dq
    ++ " height=" ++ dq ++ text_of (optprop data "height") ++ dq ++ " controls>"
    ++ "<source src=" ++ dq
    ++ force_https (unescape (text_of (optprop data "video_playurl"))) ++ dq ++ ">"
    ++ "<source src=" ++ dq
    ++ unescape (text_of (optprop data "video_playurl")) ++ dq ++ ">"
    ++ "</video>".

(** Lines 193-196. *)
Definition videoHTML (data : JV) : Res string :=
  video_playurl <- data ~> "video_playurl" ;;
  if truthy video_playurl then
    width <- data ~> "width" ;;
    height <- data ~> "height" ;;
    let u := unescape (text_of video_playurl) in
    printed [width; height; video_playurl]
      ("<video width=" ++ dq ++ text_of width ++ dq
         ++ " height=" ++ dq ++ text_of height ++ dq ++ " controls>"
         ++ "<source src=" ++ dq ++ force_https u ++ dq ++ ">"
         ++ "<source src=" ++ dq ++ u ++ dq ++ ">" ++ "</video>")
  else Ok "".

(** Lines 204-209. *)
Definition dynamic_link (item data : JV) : Res JV :=
  dynamic_id <- data ~> "dynamic_id" ;;
  if truthy dynamic_id then
    printed [dynamic_id] (JStr ("https://t.bilibili.com/" ++ text_of dynamic_id))
  else
    desc <- item ~> "desc" ;;
    if truthy (optprop desc "dynamic_id") then
      dynamic_id' <- desc ~> "dynamic_id" ;;
      printed [dynamic_id']
              (JStr ("https://t.bilibili.com/" ++ text_of dynamic_id'))
    else Ok (JStr "").

(** Lines 212-223: body text, line breaks, emoji.  [replaceAll] is a
    method of strings only. *)
Definition body_text (item data : JV) : Res string :=
  des <- getDes data ;;
  with_br <- match des with
             | JStr s => Ok (lf_to_br (crlf_to_br s))
             | _ => Err TypeError
             end ;;
  emoji_info <- item ~> "display" ~>> "emoji_info" ;;
  if truthy emoji_info && showEmoji then
    emoji_details <- emoji_info ~> "emoji_details" ;;
    emoji <- iterate emoji_details ;;
    substituteEmoji emoji with_br
  else Ok with_br.

(** Lines 263-265.  The article comes from [./cache], not from json-bigint:
    whether an object in it can be printed is not known here, and a
    description that is one is left out. *)
Definition full_article (data : JV) (data_content : string) : Res JV :=
  image_urls <- data ~> "image_urls" ;;
  if truthy image_urls && displayArticle then
    id <- data ~> "id" ;;
    article <- getArticleDataFromCvid id uid ;;
    description <- article ~> "description" ;;
    if printable description then Ok description else Err Unmodelled
  else Ok (JStr data_content).

(** Line 271: the prefix naming the origin of a repost. *)
Definition origin_prefix (origin : JV) : Res string :=
  name <- (Ok origin <&&> getOriginName origin) ;;
  if truthy name then
    name' <- getOriginName origin ;;
    label <- printed [name'] ("<br><br>//转发自: @" ++ text_of name' ++ ": ") ;;
    payload <- origin_payload origin ;;
    origin_title <- getOriginTitle payload ;;
    origin_des <- getDes payload ;;
    printed [origin_des] (label ++ origin_title ++ text_of origin_des)
  else
    d <- getOriginDes origin ;;
    printed [d] (text_of d).

(** Line 274: the description, in its fixed order, from a body that can be
    printed. *)
Definition assemble (description : JV) (originName url_data url_origin
                     iframe_data iframe_origin imgHTML video : string) : string :=
  let imgHTMLSource := if String.eqb imgHTML "" then "" else "<br>" ++ imgHTML in
  let videoHTMLSource := if String.eqb video "" then "" else "<br>" ++ video in
  text_of description ++ originName ++ "<br>"
    ++ url_data ++ url_origin ++ iframe_data ++ iframe_origin
    ++ imgHTMLSource ++ videoHTMLSource.

(** Lines 184-191: the images of the payload, then those of the origin. *)
Definition imgHTML (data origin : JV) : Res string :=
  imgs <- getImgs data ;;
  if truthy origin then
    payload <- origin_payload origin ;;
    origin_imgs <- getImgs payload ;;
    Ok (imgs ++ origin_imgs)
  else Ok imgs.

(** Lines 184-279: one item from the entry, its payload and its origin. *)
Definition normalize (author item data origin : JV) : Res (Item Date) :=
  imgHTML <- imgHTML data origin ;;
  video <- videoHTML data ;;
  link0 <- dynamic_link item data ;;
  data_content <- body_text item data ;;
  data_content' <- full_article data data_content ;;
  title <- getTitle data ;;
  description <- (Ok data_content' <||> getDes data) ;;
  originName <- origin_prefix origin ;;
  body <- printed [description] description ;;
  '(url_data, link1) <- getUrl item data link0 ;;
  '(url_origin, link2) <- getUrl item origin link1 ;;
  iframe_data <- getIframe data ;;
  iframe_origin <- getIframe origin ;;
  desc <- item ~> "desc" ;;
  pubDate <- (if truthy (optprop desc "timestamp")
              then date <- parseDate (optprop desc "timestamp") ;; Ok (Some date)
              else Ok None) ;;
  Ok (mkItem title
             (assemble body originName url_data url_origin
                       iframe_data iframe_origin imgHTML video)
             pubDate link2 author).

(** The callback of [cards.map] (lines 178-280), for one raw entry. *)
Definition handler_item (author : JV) (item : JV) : Res (Item Date) :=
  parsed <- (card <- item ~> "card" ;; JSONbig_parse card) ;;
  data <- select_data parsed ;;
  origin <- parse_origin parsed ;;
  normalize author item data origin.

(** Lines 133-135: the feed owner's name and avatar, from the cache or
    else from the first entry, [cards[0]?.desc?.user_profile?.info.uname]
    and [cards[0]?.desc?.user_profile?.info?.face]. *)
Definition first_profile (cards : list JV) : JV :=
  optprop (optprop (nth 0 cards JUndef) "desc") "user_profile".

Definition resolve_author (cached : JV) (cards : list JV) : Res JV :=
  if nullish cached then
    if nullish (first_profile cards) then Ok JUndef
    else first_profile cards ~> "info" ~>> "uname"
  else Ok cached.

Definition resolve_face (cached : JV) (cards : list JV) : JV :=
  if nullish cached then optprop (optprop (first_profile cards) "info") "face"
  else cached.

Record Feed : Type := mkFeed {
  feed_title : string;
  feed_link : string;
  feed_description : string;
  feed_image : JV;
  feed_item : list (Item Date)
}.

(** [Promise.all(cards.map(...))]: the batch is fulfilled with every item,
    in order, when every entry gives one, and rejected with the exception
    of the entry that fails when one entry does.  When several entries fail
    the exception is that of the entry that fails first in time, which the
    order of the list does not tell: the batch is rejected, by which of them
    is left out. *)
Definition failures (author : JV) (cards : list JV) : nat :=
  List.length (filter (fun item => negb (is_ok (handler_item author item))) cards).

Definition handler_items (author : JV) (cards : list JV) : Res (list (Item Date)) :=
  if (1 <? failures author cards)%nat then Err Unmodelled
  else mapM (handler_item author) cards.

(** The title of the feed, [`${author} 的 bilibili 动态`]: a name taken from
    the entries is a value of json-bigint; one taken from the cache is not,
    and is left out when it is an object. *)
Definition feed_title_of (cached_name author : JV) : Res string :=
  if printable author then Ok (text_of author ++ " 的 bilibili 动态")
  else if nullish cached_name then Err TypeError
  else Err Unmodelled.

(** Lines 131-289, from the parsed [cards] and the cached name and avatar
    on.  [cards.map] exists on arrays only. *)
Definition handler (cached_name cached_face cards : JV) : Res Feed :=
  match cards with
  | JArr l =>
      author <- resolve_author cached_name l ;;
      let face := resolve_face cached_face l in
      items <- handler_items author l ;;
      title <- feed_title_of cached_name author ;;
      Ok (mkFeed title
                 ("https://space.bilibili.com/" ++ uid ++ "/dynamic")
                 title
                 face items)
  | _ => Err TypeError
  end.

End Handler.

Arguments mkFeed {Date}.
Arguments feed_title {Date}.
Arguments feed_link {Date}.
Arguments feed_description {Date}.
Arguments feed_image {Date}.
Arguments feed_item {Date}.

End Dynamic.

Import Dynamic.

(** ** Concrete collaborators

    Executable stand-ins for the library code the handler calls, used to run
    the handler on concrete entries.  Each one computes what the library
    computes on the inputs it accepts and answers [Unmodelled] elsewhere. *)

Module Runtime.

(** *** json-bigint's recursive-descent parser, on integer JSON *)

Definition is_char (n : nat) (c : ascii) : bool := Ascii.eqb c (ascii_of_nat n).

Definition is_digit (c : ascii) : bool :=
  (48 <=? nat_of_ascii c)%nat && (nat_of_ascii c <=? 57)%nat.

(** [white]: skips every character up to the space. *)
Fixpoint white (s : string) : string :=
  match s with
  | String c r => if (nat_of_ascii c <=? 32)%nat then white r else s
  | EmptyString => s
  end.

Definition escapee (c : ascii) : option ascii :=
  if is_char 34 c then Some c            (* quote *)
  else if is_char 92 c then Some c       (* backslash *)
  else if is_char 47 c then Some c       (* slash *)
  else if is_char 98 c then Some (ascii_of_nat 8)
  else if is_char 102 c then Some (ascii_of_nat 12)
  else if is_char 110 c then Some lf
  else if is_char 114 c then Some cr
  else if is_char 116 c then Some (ascii_of_nat 9)
  else None.

(** The characters of a string literal after its opening quote. *)
Fixpoint json_string (s : string) : Res (string * string) :=
  match s with
  | EmptyString => Err SyntaxError
  | String c r =>
      if is_char 34 c then Ok ("", r)
      else if is_char 92 c then
        match r with
        | String e r' =>
            if is_char 117 e then Err Unmodelled
            else match escapee e with
                 | Some x => '(str, rest) <- json_string r' ;; Ok (String x str, rest)
                 | None => Err SyntaxError
                 end
        | EmptyString => Err SyntaxError
        end
      else '(str, rest) <- json_string r ;; Ok (String c str, rest)
  end.

Fixpoint digits (s : string) (acc : Z) (n : nat) : Z * nat * string :=
  match s with
  | String c r =>
      if is_digit c
      then digits r (10 * acc + Z.of_nat (nat_of_ascii c - 48)) (S n)
      else (acc, n, s)
  | EmptyString => (acc, n, s)
  end.

(** [number]: an optional minus and a run of digits.  A fraction, an
    exponent, more than twenty digits and a superfluous leading zero are
    left out. *)
Definition json_number (s : string) : Res (JV * string) :=
  let '(neg, body) := match s with
                      | String c r => if is_char 45 c then (true, r) else (false, s)
                      | EmptyString => (false, s)
                      end in
  let '(z, n, rest) := digits body 0%Z 0 in
  let fractional := match rest with
                    | String c _ => is_char 46 c || is_char 101 c || is_char 69 c
                    | EmptyString => false
                    end in
  match n with
  | O => Err SyntaxError
  | _ =>
      if fractional || (20 <? n)%nat || ((1 <? n)%nat && String.prefix "0" body)
      then Err Unmodelled
      else Ok (JNum (if neg then (- z)%Z else z), rest)
  end.

(** [object[key] = value]: a repeated key keeps its place and takes the
    later value. *)
Fixpoint set_field (k : string) (v : JV) (fields : list (string * JV)) : list (string * JV) :=
  match fields with
  | [] => [(k, v)]
  | (k', v') :: rest =>
      if String.eqb k k' then (k, v) :: rest else (k', v') :: set_field k v rest
  end.

(** The keys the parser refuses (its [protoAction] and [constructorAction]
    are [error]): a key in which [__proto__] or [constructor] occurs, each
    letter written as itself or as the text of its [\u] escape. *)
Definition nibble (upper : bool) (n : nat) : ascii :=
  ascii_of_nat (if (n <? 10)%nat then 48 + n
                else (if upper then 55 else 87) + n).

Definition escape_text (upper : bool) (c : ascii) : string :=
  bs ++ "u00"
     ++ String (nibble upper (nat_of_ascii c / 16))
               (String (nibble upper (nat_of_ascii c mod 16)) "").

Fixpoint skip (n : nat) (s : string) : string :=
  match n, s with
  | S k, String _ r => skip k r
  | _, _ => s
  end.

Fixpoint spelled (word : list ascii) (s : string) : bool :=
  match word with
  | [] => true
  | c :: w =>
      match s with
      | String c' r => Ascii.eqb c c' && spelled w r
      | EmptyString => false
      end
      || (String.prefix (escape_text true c) s && spelled w (skip 6 s))
      || (String.prefix (escape_text false c) s && spelled w (skip 6 s))
  end.

Fixpoint occurs (word : list ascii) (s : string) : bool :=
  spelled word s
  || match s with
     | String _ r => occurs word r
     | EmptyString => false
     end.

Definition suspect (key : string) : bool :=
  occurs (list_ascii_of_string "__proto__") key
  || occurs (list_ascii_of_string "constructor") key.

Section Containers.
Variable value : string -> Res (JV * string).

(** After [[] and at least one element to read. *)
Fixpoint json_elements (n : nat) (s : string) : Res (list JV * string) :=
  match n with
  | O => Err Unmodelled
  | S n' =>
      '(v, r) <- value s ;;
      match white r with
      | String c r' =>
          if is_char 93 c then Ok ([v], r')
          else if is_char 44 c then
            '(vs, r'') <- json_elements n' (white r') ;; Ok (v :: vs, r'')
          else Err SyntaxError
      | EmptyString => Err SyntaxError
      end
  end.

(** After [{] and at least one member to read. *)
Fixpoint json_members (n : nat) (s : string) (acc : list (string * JV))
  : Res (list (string * JV) * string) :=
  match n with
  | O => Err Unmodelled
  | S n' =>
      match s with
      | String q r =>
          if is_char 34 q then
            '(key, r1) <- json_string r ;;
            match white r1 with
            | String c r2 =>
                if is_char 58 c then
                  if suspect key then Err SyntaxError
                  else
                    '(v, r3) <- value r2 ;;
                    let acc' := set_field key v acc in
                    match white r3 with
                    | String c' r4 =>
                        if is_char 125 c' then Ok (acc', r4)
                        else if is_char 44 c' then json_members n' (white r4) acc'
                        else Err SyntaxError
                    | EmptyString => Err SyntaxError
                    end
                else Err SyntaxError
            | EmptyString => Err SyntaxError
            end
          else Err SyntaxError
      | EmptyString => Err SyntaxError
      end
  end.
End Containers.

Definition json_word (s : string) : Res (JV * string) :=
  if String.prefix "true" s then Ok (JBool true, String.substring 4 (String.length s - 4) s)
  else if String.prefix "false" s then Ok (JBool false, String.substring 5 (String.length s - 5) s)
  else if String.prefix "null" s then Ok (JNull, String.substring 4 (String.length s - 4) s)
  else Err SyntaxError.

Fixpoint json_value (fuel : nat) (s : string) : Res (JV * string) :=
  match fuel with
  | O => Err Unmodelled
  | S fuel' =>
      match white s with
      | String c r =>
          if is_char 123 c then
            match white r with
            | String c' r' =>
                if is_char 125 c' then Ok (JObj [], r')
                else '(fields, rest) <- json_members (json_value fuel') (String.length r) (white r) [] ;;
                     Ok (JObj fields, rest)
            | EmptyString => Err SyntaxError
            end
          else if is_char 91 c then
            match white r with
            | String c' r' =>
                if is_char 93 c' then Ok (JArr [], r')
                else '(l, rest) <- json_elements (json_value fuel') (String.length r) (white r) ;;
                     Ok (JArr l, rest)
            | EmptyString => Err SyntaxError
            end
          else if is_char 34 c then
            '(str, rest) <- json_string r ;; Ok (JStr str, rest)
          else if is_char 45 c || is_digit c then json_number (String c r)
          else json_word (String c r)
      | EmptyString => Err SyntaxError
      end
  end.

(** [JSONbig.parse(source)]: the source is turned into text first, by
    [source + '']. *)
Definition JSONbig_parse (source : JV) : Res JV :=
  text <- printed [source] (text_of source) ;;
  '(v, rest) <- json_value (S (String.length text)) text ;;
  match white rest with
  | EmptyString => Ok v
  | _ => Err SyntaxError
  end.

(** *** The regular-expression engine, on patterns without quantifiers

    A pattern that is a sequence of plain characters, identity escapes
    [\c] of syntax characters and positive character classes matches
    exactly the strings of its length whose characters lie in the sets that
    the items denote; under the [g] flag the matches replaced are the
    leftmost ones that do not overlap.  Any other pattern, and a
    replacement text with a dollar sign, are left out. *)

Definition syntax_chars : string := "^$\.*+?()[]{}|/".

Fixpoint mem_char (c : ascii) (s : string) : bool :=
  match s with
  | EmptyString => false
  | String c' r => Ascii.eqb c c' || mem_char c r
  end.

Inductive pstate : Type :=
| POut
| PEsc
| PClass (set : string)
| PClassEsc (set : string).

Fixpoint regexp_atoms (st : pstate) (source : string) : option (list string) :=
  match source with
  | EmptyString => match st with POut => Some [] | _ => None end
  | String c r =>
      match st with
      | POut =>
          if is_char 92 c then regexp_atoms PEsc r
          else if is_char 91 c then regexp_atoms (PClass "") r
          else if mem_char c syntax_chars then None
          else option_map (cons (String c "")) (regexp_atoms POut r)
      | PEsc =>
          if mem_char c syntax_chars
          then option_map (cons (String c "")) (regexp_atoms POut r)
          else None
      | PClass set =>
          if is_char 93 c then option_map (cons set) (regexp_atoms POut r)
          else if is_char 92 c then regexp_atoms (PClassEsc set) r
          else if is_char 45 c || is_char 94 c || (128 <=? nat_of_ascii c)%nat then None
          else regexp_atoms (PClass (String c set)) r
      | PClassEsc set =>
          if mem_char c syntax_chars || is_char 45 c
          then regexp_atoms (PClass (String c set)) r
          else None
      end
  end.

Fixpoint matches (atoms : list string) (s : string) : bool :=
  match atoms, s with
  | [], _ => true
  | set :: atoms', String c r => mem_char c set && matches atoms' r
  | _ :: _, EmptyString => false
  end.

(** [skip] counts the characters of the subject that belong to the match
    just replaced. *)
Fixpoint replace_matches (atoms : list string) (replacement : string)
         (skip : nat) (s : string) : string :=
  match s with
  | EmptyString => EmptyString
  | String c r =>
      match skip with
      | S k => replace_matches atoms replacement k r
      | O =>
          if matches atoms s
          then replacement ++ replace_matches atoms replacement (List.length atoms - 1) r
          else String c (replace_matches atoms replacement 0 r)
      end
  end.

Definition regexp_replaceAll (source : string)
  : Res (string -> string -> Res string) :=
  match regexp_atoms POut source with
  | Some (a :: atoms) =>
      Ok (fun subject replacement =>
            if mem_char (ascii_of_nat 36) replacement then Err Unmodelled
            else Ok (replace_matches (a :: atoms) replacement 0 subject))
  | _ => Err Unmodelled
  end.

(** *** [unescape]

    An escape [%uXXXX] or [%XX] is replaced by the code unit it names; a
    percent sign that starts no escape is kept.  The text is UTF-8: a code
    unit becomes the bytes of its character, a high surrogate and the low
    surrogate after it those of the character they spell together, and a
    surrogate that stands alone the three bytes the encoding would give it. *)

Definition hex_digit (c : ascii) : option N :=
  let n := N_of_ascii c in
  if (48 <=? n)%N && (n <=? 57)%N then Some (n - 48)%N
  else if (65 <=? n)%N && (n <=? 70)%N then Some (n - 55)%N
  else if (97 <=? n)%N && (n <=? 102)%N then Some (n - 87)%N
  else None.

Fixpoint hex_number (count : nat) (s : string) (acc : N) : option N :=
  match count with
  | O => Some acc
  | S k =>
      match s with
      | String c r =>
          match hex_digit c with
          | Some d => hex_number k r (16 * acc + d)%N
          | None => None
          end
      | EmptyString => None
      end
  end.

Inductive piece : Type :=
| Byte (c : ascii)
| CodeUnit (n : N).

Fixpoint unescape_from (skipped : nat) (s : string) : list piece :=
  match s with
  | EmptyString => []
  | String c r =>
      match skipped with
      | S k => unescape_from k r
      | O =>
          if is_char 37 c then
            match r with
            | String u r' =>
                if is_char 117 u then
                  match hex_number 4 r' 0%N with
                  | Some n => CodeUnit n :: unescape_from 5 r
                  | None => Byte c :: unescape_from 0 r
                  end
                else
                  match hex_number 2 r 0%N with
                  | Some n => CodeUnit n :: unescape_from 2 r
                  | None => Byte c :: unescape_from 0 r
                  end
            | EmptyString => [Byte c]
            end
          else Byte c :: unescape_from 0 r
      end
  end.

Definition byte (n : N) : string := String (ascii_of_N n) "".

Definition utf8 (n : N) : string :=
  if (n <? 128)%N then byte n
  else if (n <? 2048)%N then byte (192 + n / 64) ++ byte (128 + n mod 64)
  else if (n <? 65536)%N
       then byte (224 + n / 4096) ++ byte (128 + (n / 64) mod 64)
                 ++ byte (128 + n mod 64)
  else byte (240 + n / 262144) ++ byte (128 + (n / 4096) mod 64)
            ++ byte (128 + (n / 64) mod 64) ++ byte (128 + n mod 64).

Definition high_surrogate (n : N) : bool := (55296 <=? n)%N && (n <? 56320)%N.
Definition low_surrogate (n : N) : bool := (56320 <=? n)%N && (n <? 57344)%N.

Fixpoint encode (l : list piece) : string :=
  match l with
  | [] => ""
  | Byte c :: r => String c (encode r)
  | CodeUnit n :: r =>
      match r with
      | CodeUnit m :: r' =>
          if high_surrogate n && low_surrogate m
          then utf8 (65536 + (n - 55296) * 1024 + (m - 56320)) ++ encode r'
          else utf8 n ++ encode r
      | _ => utf8 n ++ encode r
      end
  end.

Definition unescape (s : string) : string := encode (unescape_from 0 s).

(** The embed snippet of [./utils] is not part of this file; the runs below
    only need some text for it, printed from the id. *)
Definition utils_iframe (aid : JV) : Res string :=
  printed [aid] ("<iframe aid=" ++ text_of aid ++ "></iframe>").

(** An article service that is down, and one that answers. *)
Definition article_down (id : JV) (uid : string) : Res JV := Err Rejected.
Definition article_up (id : JV) (uid : string) : Res JV :=
  Ok (JObj [("description", JStr ("full text of cv" ++ text_of id))]).

(** Dates stay the epoch seconds they are parsed from; what the date
    parser makes of a timestamp that is no number and no text is left
    out. *)
Definition parseDate (timestamp : JV) : Res string :=
  match timestamp with
  | JNum _ | JStr _ => Ok (text_of timestamp)
  | _ => Err Unmodelled
  end.

Definition run_normalize (showEmoji disableEmbed displayArticle useAvid directLink : bool)
           (item data origin : JV) : Res (Item string) :=
  normalize unescape regexp_replaceAll utils_iframe article_down
            string parseDate "2267573"
            showEmoji disableEmbed displayArticle useAvid directLink
            (JStr "up") item data origin.

Definition run_items (showEmoji disableEmbed displayArticle useAvid directLink : bool)
           (article : JV -> string -> Res JV) (cards : list JV)
  : Res (list (Item string)) :=
  handler_items JSONbig_parse unescape regexp_replaceAll utils_iframe article
                string parseDate "2267573"
                showEmoji disableEmbed displayArticle useAvid directLink
                (JStr "up") cards.

Definition run_item (showEmoji disableEmbed displayArticle useAvid directLink : bool)
           (article : JV -> string -> Res JV) (item : JV) : Res (Item string) :=
  handler_item JSONbig_parse unescape regexp_replaceAll utils_iframe article
               string parseDate "2267573"
               showEmoji disableEmbed displayArticle useAvid directLink
               (JStr "up") item.

Definition run_handler (showEmoji disableEmbed displayArticle useAvid directLink : bool)
           (cached_name cached_face cards : JV) : Res (Feed string) :=
  handler JSONbig_parse unescape regexp_replaceAll utils_iframe article_down
          string parseDate "2267573"
          showEmoji disableEmbed displayArticle useAvid directLink
          cached_name cached_face cards.

End Runtime.

(** ** Priority lists, as the specification words them *)

(** The first candidate that holds a value (is truthy), else the default. *)
Fixpoint first_truthy (candidates : list JV) (default : JV) : JV :=
  match candidates with
  | [] => default
  | c :: rest => if truthy c then c else first_truthy rest default
  end.

(** [(wrapper).k]: the field of a wrapper object that may be missing. *)
Definition wrapped (data : JV) (wrapper k : string) : JV :=
  if truthy (optprop data wrapper)
  then optprop (optprop data wrapper) k
  else optprop data wrapper.

Definition title_candidates (data : JV) : list JV :=
  [optprop data "title"; optprop data "description"; optprop data "content";
   wrapped data "vest" "content"].

(** The sixth slot of the description as the code computes it: both
    operands of [+] are evaluated, also when one of them is missing.  The
    slot is reached when the five fields before it hold nothing, and it
    throws when [vest.content], or a field of the sketch that goes into the
    suffix, cannot be printed. *)
Definition vest_slot (data : JV) : JV :=
  js_add (wrapped data "vest" "content")
         (if truthy (optprop data "sketch")
          then JStr ("<br>" ++ text_of (optprop (optprop data "sketch") "title")
                       ++ "<br>" ++ text_of (optprop (optprop data "sketch") "desc_text"))
          else optprop data "sketch").

Definition vest_slot_printable (data : JV) : bool :=
  printable (wrapped data "vest" "content")
  && (if truthy (optprop data "sketch")
      then printable (optprop (optprop data "sketch") "title")
           && printable (optprop (optprop data "sketch") "desc_text")
      else true).

Definition des_printable (data : JV) : bool :=
  existsb truthy [optprop data "dynamic"; optprop data "desc";
                  optprop data "description"; optprop data "content";
                  optprop data "summary"]
  || vest_slot_printable data.

Definition des_candidates (data : JV) : list JV :=
  [optprop data "dynamic"; optprop data "desc"; optprop data "description";
   optprop data "content"; optprop data "summary"; vest_slot data;
   optprop data "intro"].

(** Origin author name: uname, author.name, uploader.name,
    user.uname / user.name, owner.name. *)
Definition origin_user (data : JV) : JV :=
  if truthy (optprop data "user")
  then jor (optprop (optprop data "user") "uname")
           (optprop (optprop data "user") "name")
  else optprop data "user".

Definition origin_name_candidates (data : JV) : list JV :=
  [optprop data "uname"; wrapped data "author" "name";
   wrapped data "upper" "name"; origin_user data; wrapped data "owner" "name"].

(** The author name of an origin, the payload its title and description
    are taken from ([origin.item || origin]) and the title with its line
    break, as line 271 puts them into the prefix. *)
Definition origin_name (origin : JV) : JV :=
  first_truthy (origin_name_candidates origin) (JStr "").

Definition origin_item (origin : JV) : JV :=
  jor (optprop origin "item") origin.

Definition origin_title_prefix (payload : JV) : string :=
  if truthy (optprop payload "title")
  then text_of (optprop payload "title") ++ "<br>"
  else "".

(** [needle] occurs in [s]. *)
Fixpoint contains (needle s : string) : bool :=
  String.prefix needle s
  || match s with
     | String _ r => contains needle r
     | EmptyString => false
     end.

(** The two operands of [+] in the cross-reference of an origin. *)
Definition season_part (data : JV) : JV :=
  if truthy (wrapped data "apiSeasonInfo" "title")
  then JStr ("//转发自: " ++ text_of (wrapped data "apiSeasonInfo" "title"))
  else wrapped data "apiSeasonInfo" "title".

Definition episode_part (data : JV) : JV :=
  if truthy (optprop data "index_title")
  then JStr ("<br>" ++ text_of (optprop data "index_title"))
  else optprop data "index_title".

(** ** Link dispatch, as the specification words it

    Six signals checked in a fixed order; the first one present decides the
    branch, its URL and the label of its anchor line. *)

Inductive Branch : Type :=
| Video | Article | Audio | Live | Campaign | Generic.

Definition dispatch_order : list Branch :=
  [Video; Article; Audio; Live; Campaign; Generic].

Definition signal_field (b : Branch) : string :=
  match b with
  | Video => "aid"
  | Article => "image_urls"
  | Audio => "upper"
  | Live => "roomid"
  | Campaign => "sketch"
  | Generic => "url"
  end.

Definition signal (data : JV) (b : Branch) : bool :=
  truthy (optprop data (signal_field b)).

Definition dispatch (data : JV) : option Branch :=
  find (signal data) dispatch_order.

Definition branch_label (b : Branch) : string :=
  match b with
  | Video => "视频地址"
  | Article => "专栏地址"
  | Audio => "音频地址"
  | Live => "直播间地址"
  | Campaign => "活动地址"
  | Generic => "地址"
  end.

Definition branch_url (useAvid : bool) (item data : JV) (b : Branch) : JV :=
  match b with
  | Video =>
      let id := if useAvid then JStr ("av" ++ text_of (optprop data "aid"))
                else jor (optprop (optprop item "desc") "bvid")
                         (optprop (optprop (optprop item "desc") "origin") "bvid") in
      JStr ("https://www.bilibili.com/video/" ++ text_of id)
  | Article => JStr ("https://www.bilibili.com/read/cv" ++ text_of (optprop data "id"))
  | Audio => JStr ("https://www.bilibili.com/audio/au" ++ text_of (optprop data "id"))
  | Live => JStr ("https://live.bilibili.com/" ++ text_of (optprop data "roomid"))
  | Campaign => optprop (optprop data "sketch") "target_url"
  | Generic => optprop data "url"
  end.

(** The value a branch prints into its URL: the id, or the URL itself that
    the payload carries. *)
Definition branch_value (useAvid : bool) (item data : JV) (b : Branch) : JV :=
  match b with
  | Video =>
      if useAvid then optprop data "aid"
      else jor (optprop (optprop item "desc") "bvid")
               (optprop (optprop (optprop item "desc") "origin") "bvid")
  | Article | Audio => optprop data "id"
  | Live => optprop data "roomid"
  | Campaign => optprop (optprop data "sketch") "target_url"
  | Generic => optprop data "url"
  end.

(** The content URL of a payload, when a branch applies. *)
Definition content_url (useAvid : bool) (item data : JV) : option JV :=
  option_map (branch_url useAvid item data) (dispatch data).

(** The permalink derived from the dynamic id: the payload's, else the
    envelope's, else none. *)
Definition dynamic_id_link (item data : JV) : JV :=
  let id := jor (optprop data "dynamic_id")
                (optprop (optprop item "desc") "dynamic_id") in
  if truthy id then JStr ("https://t.bilibili.com/" ++ text_of id) else JStr "".

(** ** Vocabulary for further properties *)

Fixpoint has_lf (s : string) : bool :=
  match s with
  | EmptyString => false
  | String c r => Ascii.eqb c lf || has_lf r
  end.

(** Every CR LF pair turned into a bare LF. *)
Fixpoint crlf_to_lf (s : string) : string :=
  match s with
  | EmptyString => EmptyString
  | String c r =>
      match r with
      | String c' r' =>
          if Ascii.eqb c cr && Ascii.eqb c' lf
          then String lf (crlf_to_lf r')
          else String c (crlf_to_lf r)
      | EmptyString => String c EmptyString
      end
  end.

(** A pattern source read back: a backslash and the character it escapes
    are dropped. *)
Fixpoint drop_escapes (s : string) : string :=
  match s with
  | EmptyString => EmptyString
  | String c r =>
      if Ascii.eqb c (ascii_of_nat 92)
      then match r with
           | String _ r' => drop_escapes r'
           | EmptyString => EmptyString
           end
      else String c (drop_escapes r)
  end.

Fixpoint without_backslashes (s : string) : string :=
  match s with
  | EmptyString => EmptyString
  | String c r =>
      if Ascii.eqb c (ascii_of_nat 92) then without_backslashes r
      else String c (without_backslashes r)
  end.

(** The elements of an array field; a field that is absent or holds no
    value counts as the empty array. *)
Definition as_list (v : JV) : option (list JV) :=
  match v with
  | JArr l => Some l
  | _ => if truthy v then None else Some []
  end.

(** The cover tag of lines 165-169 and the campaign cover of lines
    171-173. *)
Definition cover_tag (data : JV) : string :=
  if truthy (optprop data "cover") then
    if truthy (optprop (optprop data "cover") "unclipped")
    then img_tag (optprop (optprop data "cover") "unclipped")
    else img_tag (optprop data "cover")
  else "".

Definition sketch_cover_tag (data : JV) : string :=
  if truthy (wrapped data "sketch" "cover_url")
  then img_tag (optprop (optprop data "sketch") "cover_url")
  else "".

(** ** Sample entries *)

Module Samples.

(** JSON text is written with [q] for the quotation mark. *)
Definition q : string := dq.
Definition key (k : string) : string := q ++ k ++ q ++ ":".
Definition str (s : string) : string := q ++ s ++ q.

Definition obj (members : list string) : string := "{" ++ join "," members ++ "}".

(** The payload of the specification's round-trip scenario. *)
Definition card_plain : JV :=
  JStr (obj [key "item" ++ obj [key "title" ++ str "T";
                                key "description" ++ str "D"]]).

Definition envelope : JV :=
  JObj [("dynamic_id", JNum 123); ("timestamp", JStr "1600000000")].

(** A well-formed entry, and the same entry without [display]. *)
Definition entry_plain : JV :=
  JObj [("card", card_plain); ("desc", envelope); ("display", JObj [])].

Definition entry_no_display : JV :=
  JObj [("card", card_plain); ("desc", envelope)].


(** An article entry. *)
Definition entry_article : JV :=
  JObj [("card", JStr (obj [key "id" ++ "9"; key "title" ++ str "A";
                            key "summary" ++ str "S";
                            key "image_urls" ++ "[" ++ str "c.png" ++ "]"]));
        ("desc", envelope); ("display", JObj [])].

(** A repost whose origin payload is cut short. *)
Definition entry_bad_origin : JV :=
  JObj [("card", JStr (obj [key "item" ++ obj [key "content" ++ str "x"];
                            key "origin" ++ str "{"]));
        ("desc", envelope); ("display", JObj [])].

(** A text entry that uses the emoji [[doge]] once. *)
Definition entry_emoji : JV :=
  JObj [("card", JStr (obj [key "item" ++ obj [key "content" ++ str "hi [doge] ??d?"]]));
        ("desc", envelope);
        ("display",
         JObj [("emoji_info",
                JObj [("emoji_details",
                       JArr [JObj [("text", JStr "[doge]"); ("url", JStr "U")]])])])].

(** A short-video entry. *)
Definition entry_video : JV :=
  JObj [("card", JStr (obj [key "item" ++ obj [key "description" ++ str "D";
                                               key "video_playurl" ++ str "http://v/1.mp4";
                                               key "width" ++ "1";
                                               key "height" ++ "2"]]));
        ("desc", envelope); ("display", JObj [])].


(** A repost of a video: the payload is a livestream-room post, the origin a
    video of another author. *)
Definition data_live : JV :=
  JObj [("content", JStr "look"); ("roomid", JNum 5)].

Definition origin_video : JV :=
  JObj [("aid", JNum 7); ("title", JStr "V"); ("desc", JStr "about");
        ("owner", JObj [("name", JStr "bob")])].

Definition entry_repost : JV :=
  JObj [("desc", JObj [("dynamic_id", JNum 123);
                       ("origin", JObj [("bvid", JStr "BV1xx")])]);
        ("display", JObj [])].

(** A text entry without origin whose own text quotes a repost line. *)
Definition card_quoting : JV :=
  JStr (obj [key "item" ++ obj [key "content" ++ str "//转发自: @bob"]]).

Definition entry_quoting : JV :=
  JObj [("card", card_quoting); ("desc", envelope); ("display", JObj [])].

(** A payload whose only link signal is a [url] that is an object, and an
    entry with such a payload. *)
Definition data_url_object : JV :=
  JObj [("url", JObj [("web", JStr "u")])].

Definition entry_url_object : JV :=
  JObj [("card", JStr (obj [key "content" ++ str "x";
                            key "url" ++ obj [key "web" ++ str "u"]]));
        ("desc", envelope); ("display", JObj [])].

(** An origin that only carries a seasonal cross-reference. *)
Definition origin_season : JV :=
  JObj [("apiSeasonInfo", JObj [("title", JStr "S")]);
        ("index_title", JStr "E1")].

End Samples.

(** * Properties *)

(** ** The error monad and member access *)

Lemma bind_Ok_inv {A B} (r : Res A) (k : A -> Res B) (b : B) :
  bind r k = Ok b -> exists a, r = Ok a /\ k a = Ok b.
Proof.
  destruct r as [a|e]; simpl; intros H; [exists a; auto | discriminate].
Qed.

Lemma is_ok_bind {A B} (r : Res A) (k : A -> Res B) :
  (forall a, r = Ok a -> is_ok (k a) = false) -> is_ok (bind r k) = false.
Proof.
  destruct r as [a|e]; simpl; intros H; [apply H; reflexivity | reflexivity].
Qed.

Ltac inv_bind H :=
  match type of H with
  | bind _ _ = Ok _ =>
      let a := fresh "a" in
      let Ha := fresh "H" a in
      let Hk := fresh "Hk" in
      apply bind_Ok_inv in H; destruct H as (a & Ha & Hk); simpl in Hk;
      try inv_bind Hk
  | (let '(_, _) := ?p in _) = Ok _ => destruct p; simpl in H; try inv_bind H
  | _ => idtac
  end.

Lemma Ok_inj {A} (a b : A) : Ok a = Ok b -> a = b.
Proof. intros H. injection H as ->. reflexivity. Qed.

Lemma truthy_not_nullish (v : JV) : truthy v = true -> nullish v = false.
Proof. destruct v; simpl; intros H; (discriminate || reflexivity). Qed.

Lemma falsy_printable (v : JV) : truthy v = false -> printable v = true.
Proof. destruct v; simpl; intros H; (discriminate || reflexivity). Qed.

Lemma prop_defined (v : JV) (k : string) :
  nullish v = false -> v ~> k = Ok (optprop v k).
Proof. unfold prop; intros ->; reflexivity. Qed.

Lemma prop_Ok_inv (v : JV) (k : string) (x : JV) :
  v ~> k = Ok x -> nullish v = false /\ x = optprop v k.
Proof.
  unfold prop; destruct (nullish v); intros H; [discriminate|].
  injection H as <-; auto.
Qed.

(** *** Printing *)

Lemma printed_defined {A} (values : list JV) (result : A) :
  forallb printable values = true -> printed values result = Ok result.
Proof. unfold printed; intros ->; reflexivity. Qed.

Lemma printed_Ok_inv {A} (values : list JV) (result v : A) :
  printed values result = Ok v ->
  forallb printable values = true /\ v = result.
Proof.
  unfold printed. destruct (forallb printable values); intros H;
    [injection H as <-; auto | discriminate].
Qed.

Lemma printed_one {A} (v : JV) (result : A) :
  printed [v] result = if printable v then Ok result else Err TypeError.
Proof. unfold printed. simpl. rewrite andb_true_r. reflexivity. Qed.

Lemma printed_string {A} (s : string) (result : A) :
  printed [JStr s] result = Ok result.
Proof. reflexivity. Qed.

(** *** [||] and [&&] *)

Lemma por_Ok (v : JV) (b : Res JV) :
  Ok v <||> b = if truthy v then Ok v else b.
Proof. reflexivity. Qed.

Lemma pand_Ok (v : JV) (b : Res JV) :
  Ok v <&&> b = if truthy v then b else Ok v.
Proof. reflexivity. Qed.

Lemma por_assoc (a b c : Res JV) : a <||> b <||> c = a <||> (b <||> c).
Proof.
  destruct a as [v|e]; [|reflexivity]. unfold por at 2 3. simpl.
  destruct (truthy v) eqn:Hv; [|reflexivity].
  unfold por; simpl. rewrite Hv. reflexivity.
Qed.

Lemma pand_wrapped (data : JV) (wrapper k : string) :
  Ok (optprop data wrapper) <&&> Ok (optprop data wrapper) ~>> k
  = Ok (wrapped data wrapper k).
Proof.
  unfold wrapped. rewrite pand_Ok.
  destruct (truthy (optprop data wrapper)) eqn:Hw; [|reflexivity].
  simpl. apply prop_defined, truthy_not_nullish, Hw.
Qed.

Lemma por_first_truthy (c : JV) (rest : list JV) (default : JV) (r : Res JV) :
  r = Ok (first_truthy rest default) ->
  Ok c <||> r = Ok (first_truthy (c :: rest) default).
Proof.
  intros ->. rewrite por_Ok. simpl. destruct (truthy c); reflexivity.
Qed.

Lemma getTitle_defined (data : JV) :
  truthy data = true ->
  getTitle data = Ok (first_truthy (title_candidates data) (JStr "")).
Proof.
  intros Ht. unfold getTitle. rewrite Ht.
  pose proof (truthy_not_nullish _ Ht) as Hn.
  rewrite !(prop_defined _ _ Hn), pand_wrapped, !por_assoc.
  unfold title_candidates.
  repeat apply por_first_truthy. reflexivity.
Qed.

(** ** Title and description extraction *)

Lemma first_truthy_none (candidates : list JV) (default : JV) :
  Forall (fun c => truthy c = false) candidates ->
  first_truthy candidates default = default.
Proof.
  induction 1 as [|c rest Hc _ IH]; simpl; [reflexivity|].
  rewrite Hc. exact IH.
Qed.


Lemma first_truthy_app (front back : list JV) (default : JV) :
  first_truthy (front ++ back)%list default
  = if existsb truthy front then first_truthy front default
    else first_truthy back default.
Proof.
  induction front as [|c front IH]; simpl; [reflexivity|].
  destruct (truthy c); [reflexivity | exact IH].
Qed.

(** The suffix of the sixth slot: the template literal prints the title
    and the text of the sketch. *)
Lemma sketch_operand (data : JV) :
  nullish data = false ->
  data ~> "sketch" <&&> sketch_suffix data
  = if truthy (optprop data "sketch")
    then printed [optprop (optprop data "sketch") "title";
                  optprop (optprop data "sketch") "desc_text"]
                 (JStr ("<br>" ++ text_of (optprop (optprop data "sketch") "title")
                          ++ "<br>"
                          ++ text_of (optprop (optprop data "sketch") "desc_text")))
    else Ok (optprop data "sketch").
Proof.
  intros Hn. unfold sketch_suffix. rewrite !(prop_defined _ _ Hn), pand_Ok.
  destruct (truthy (optprop data "sketch")) eqn:Hs; [|reflexivity].
  cbn [bind]. rewrite !(prop_defined _ _ (truthy_not_nullish _ Hs)). reflexivity.
Qed.

(** The sixth slot: the sum when both operands print, a TypeError else. *)
Lemma vest_operand (data : JV) :
  nullish data = false ->
  padd (data ~> "vest" <&&> data ~> "vest" ~>> "content")
       (data ~> "sketch" <&&> sketch_suffix data)
  = if vest_slot_printable data then Ok (vest_slot data) else Err TypeError.
Proof.
  intros Hn. rewrite (sketch_operand _ Hn).
  rewrite !(prop_defined _ _ Hn), pand_wrapped.
  unfold padd, vest_slot_printable, vest_slot. cbn [bind].
  destruct (truthy (optprop data "sketch")) eqn:Hs.
  - unfold printed at 1. cbn [forallb]. rewrite andb_true_r.
    destruct (printable (optprop (optprop data "sketch") "title"));
      [|cbn [andb bind]; rewrite andb_false_r; reflexivity].
    destruct (printable (optprop (optprop data "sketch") "desc_text"));
      [|cbn [andb bind]; rewrite andb_false_r; reflexivity].
    cbn [andb bind]. unfold printed. cbn [forallb printable].
    rewrite !andb_true_r. reflexivity.
  - cbn [bind]. unfold printed. cbn [forallb].
    rewrite (falsy_printable _ Hs), !andb_true_r. reflexivity.
Qed.

(** [getDes] on a payload that is not nullish: the first candidate that
    holds a value, unless the sixth slot is reached and cannot be printed. *)
Lemma getDes_defined (data : JV) :
  nullish data = false ->
  getDes data
  = if des_printable data
    then Ok (first_truthy (des_candidates data) (JStr ""))
    else Err TypeError.
Proof.
  intros Hn. unfold getDes. rewrite (vest_operand _ Hn).
  rewrite !(prop_defined _ _ Hn), !por_assoc.
  unfold des_printable, des_candidates. cbn [existsb first_truthy].
  repeat (rewrite por_Ok;
          match goal with
          | |- context [truthy ?v] =>
              destruct (truthy v); [reflexivity|]
          end).
  cbn [orb]. destruct (vest_slot_printable data); [|reflexivity].
  rewrite !por_Ok. destruct (truthy (vest_slot data)); [reflexivity|].
  destruct (truthy (optprop data "intro")); reflexivity.
Qed.

Lemma getDes_Ok_inv (data v : JV) :
  getDes data = Ok v ->
  nullish data = false /\ v = first_truthy (des_candidates data) (JStr "").
Proof.
  intros H.
  assert (Hn : nullish data = false).
  { unfold getDes in H. destruct (nullish data) eqn:Hn; [|reflexivity].
    unfold prop in H. rewrite Hn in H. discriminate. }
  split; [exact Hn|].
  rewrite (getDes_defined _ Hn) in H.
  destruct (des_printable data); [|discriminate]. apply Ok_inj in H. auto.
Qed.

(** C8.  Title extraction is first-match-wins over title, description,
    content, vest.content, else the empty string (a field counts when it
    holds a truthy value).  With title and description both set the title is
    the [title] field; with no candidate field the title is empty. *)
Theorem getTitle_priority (data : JV) :
  getTitle data
  = Ok (if truthy data then first_truthy (title_candidates data) (JStr "")
        else JStr "")
  /\ (truthy (optprop data "title") = true ->
      truthy (optprop data "description") = true ->
      getTitle data = Ok (optprop data "title"))
  /\ (Forall (fun c => truthy c = false) (title_candidates data) ->
      getTitle data = Ok (JStr "")).
Proof.
  assert (Hgen : getTitle data
                 = Ok (if truthy data
                       then first_truthy (title_candidates data) (JStr "")
                       else JStr "")).
  { destruct (truthy data) eqn:Ht.
    - apply getTitle_defined, Ht.
    - unfold getTitle. rewrite Ht. reflexivity. }
  split; [exact Hgen|]. split.
  - intros Htitle _. rewrite Hgen.
    assert (Ht : truthy data = true).
    { destruct data; simpl in Htitle; try discriminate; reflexivity. }
    rewrite Ht. unfold title_candidates. simpl. rewrite Htitle. reflexivity.
  - intros Hnone. rewrite Hgen.
    rewrite (first_truthy_none _ _ Hnone). destruct (truthy data); reflexivity.
Qed.

Lemma getTitle_priority_witness :
  getTitle (JObj [("title", JStr "T"); ("description", JStr "D")]) = Ok (JStr "T")
  /\ getTitle (JObj [("pictures", JArr [])]) = Ok (JStr "").
Proof.
  split.
  - exact (proj1 (proj2 (getTitle_priority
             (JObj [("title", JStr "T"); ("description", JStr "D")])))
             eq_refl eq_refl).
  - apply (proj2 (proj2 (getTitle_priority (JObj [("pictures", JArr [])])))).
    repeat constructor.
Defined.

(** C5.  The sixth slot of the description adds the campaign suffix to
    vest.content with [+] whether or not there is a sketch: a payload
    whose first match is vest.content and that has no sketch yields
    vest.content followed by the text [undefined], not vest.content. *)
Theorem getDes_vest_without_sketch (data : JV) (content : string) :
  nullish data = false ->
  Forall (fun k => truthy (optprop data k) = false)
         ["dynamic"; "desc"; "description"; "content"; "summary"] ->
  wrapped data "vest" "content" = JStr content ->
  optprop data "sketch" = JUndef ->
  getDes data = Ok (JStr (content ++ "undefined")).
Proof.
  intros Hn Hfirst Hvest Hsketch.
  rewrite (getDes_defined _ Hn). unfold des_printable, des_candidates.
  repeat match goal with
         | H : Forall _ (_ :: _) |- _ => inversion H; subst; clear H
         end.
  simpl.
  repeat match goal with H : truthy _ = false |- _ => rewrite H; clear H end.
  unfold vest_slot_printable, vest_slot. rewrite Hvest, Hsketch. simpl.
  destruct content; reflexivity.
Qed.

Lemma getDes_vest_without_sketch_witness :
  getDes (JObj [("vest", JObj [("content", JStr "abc")])])
  = Ok (JStr "abcundefined").
Proof.
  apply (getDes_vest_without_sketch
           (JObj [("vest", JObj [("content", JStr "abc")])]) "abc");
    [reflexivity | repeat constructor | reflexivity | reflexivity].
Defined.

(** The same [+] with a sketch and no vest: the text [undefined] comes
    first and the slot wins over [intro]. *)
Example getDes_sketch_without_vest :
  getDes (JObj [("sketch", JObj [("title", JStr "t"); ("desc_text", JStr "d")]);
                ("intro", JStr "I")])
  = Ok (JStr "undefined<br>t<br>d").
Proof. reflexivity. Qed.

(** The rest of the priority list holds: without vest and sketch the
    description is the first of dynamic, desc, description, content, summary
    and intro that holds a value, else the empty string. *)
Lemma getDes_without_campaign (data : JV) :
  nullish data = false ->
  optprop data "vest" = JUndef ->
  optprop data "sketch" = JUndef ->
  getDes data
  = Ok (first_truthy [optprop data "dynamic"; optprop data "desc";
                      optprop data "description"; optprop data "content";
                      optprop data "summary"; optprop data "intro"] (JStr "")).
Proof.
  intros Hn Hvest Hsketch. rewrite (getDes_defined _ Hn).
  unfold des_printable, vest_slot_printable, des_candidates, vest_slot, wrapped.
  rewrite Hvest, Hsketch. simpl. rewrite orb_true_r.
  repeat match goal with
         | |- context [truthy ?v] => destruct (truthy v); [reflexivity|]
         end.
  reflexivity.
Qed.


(** ** Repost prefix *)

Lemma append_assoc (s1 s2 s3 : string) : (s1 ++ s2) ++ s3 = s1 ++ s2 ++ s3.
Proof. induction s1 as [|c s1 IH]; simpl; [reflexivity | now rewrite IH]. Qed.

Lemma por_Ok_Ok (v w : JV) : Ok v <||> Ok w = Ok (jor v w).
Proof. rewrite por_Ok. unfold jor. destruct (truthy v); reflexivity. Qed.

Lemma getOriginName_defined (data : JV) :
  nullish data = false ->
  getOriginName data
  = Ok (first_truthy (origin_name_candidates data) (JStr "")).
Proof.
  intros Hn. unfold getOriginName.
  assert (Huser : data ~> "user"
                    <&&> (data ~> "user" ~>> "uname" <||> data ~> "user" ~>> "name")
                  = Ok (origin_user data)).
  { unfold origin_user, jor. rewrite !(prop_defined _ _ Hn), pand_Ok.
    destruct (truthy (optprop data "user")) eqn:Hu; [|reflexivity].
    cbn [bind]. rewrite !(prop_defined _ _ (truthy_not_nullish _ Hu)).
    apply por_Ok_Ok. }
  rewrite Huser.
  rewrite !(prop_defined _ _ Hn), !pand_wrapped, !por_assoc.
  unfold origin_name_candidates.
  repeat apply por_first_truthy. reflexivity.
Qed.

Lemma origin_payload_defined (origin : JV) :
  nullish origin = false ->
  origin_payload origin = Ok (jor (optprop origin "item") origin).
Proof.
  intros Hn. unfold origin_payload. rewrite (prop_defined _ _ Hn).
  apply por_Ok_Ok.
Qed.

Lemma origin_payload_not_nullish (origin : JV) :
  truthy origin = true -> nullish (jor (optprop origin "item") origin) = false.
Proof.
  intros Ht. unfold jor.
  destruct (truthy (optprop origin "item")) eqn:Hi;
    apply truthy_not_nullish; assumption.
Qed.

Lemma getOriginTitle_defined (data : JV) :
  nullish data = false ->
  getOriginTitle data
  = if truthy (optprop data "title")
    then printed [optprop data "title"] (text_of (optprop data "title") ++ "<br>")
    else Ok "".
Proof.
  intros Hn. unfold getOriginTitle. rewrite (prop_defined _ _ Hn). reflexivity.
Qed.

Lemma season_operand (data : JV) :
  nullish data = false ->
  data ~> "apiSeasonInfo" <&&> data ~> "apiSeasonInfo" ~>> "title"
    <&&> (t <- data ~> "apiSeasonInfo" ~>> "title" ;;
          printed [t] (JStr ("//转发自: " ++ text_of t)))
  = if truthy (wrapped data "apiSeasonInfo" "title")
    then printed [wrapped data "apiSeasonInfo" "title"]
                 (JStr ("//转发自: "
                          ++ text_of (wrapped data "apiSeasonInfo" "title")))
    else Ok (wrapped data "apiSeasonInfo" "title").
Proof.
  intros Hn. rewrite !(prop_defined _ _ Hn), pand_wrapped, pand_Ok.
  unfold wrapped.
  destruct (truthy (optprop data "apiSeasonInfo")) eqn:Ha.
  - cbn [bind]. rewrite (prop_defined _ _ (truthy_not_nullish _ Ha)).
    reflexivity.
  - rewrite Ha. reflexivity.
Qed.

Lemma episode_operand (data : JV) :
  nullish data = false ->
  data ~> "index_title"
    <&&> (t <- data ~> "index_title" ;; printed [t] (JStr ("<br>" ++ text_of t)))
  = if truthy (optprop data "index_title")
    then printed [optprop data "index_title"]
                 (JStr ("<br>" ++ text_of (optprop data "index_title")))
    else Ok (optprop data "index_title").
Proof.
  intros Hn. rewrite !(prop_defined _ _ Hn), pand_Ok. reflexivity.
Qed.

Lemma js_add_string (s : string) (b : JV) :
  js_add (JStr s) b = JStr (s ++ text_of b).
Proof.
  unfold js_add. cbn [to_prim]. f_equal. f_equal.
  destruct b as [| | |c|z|t|l|fields]; try reflexivity.
  cbn [to_prim]. destruct (is_big z); reflexivity.
Qed.

(** The cross-reference of an origin with a seasonal title, when it can be
    computed: the title after [//转发自: ], then the episode operand as [+]
    prints it. *)
Lemma getOriginDes_season (data d : JV) :
  truthy data = true ->
  truthy (wrapped data "apiSeasonInfo" "title") = true ->
  getOriginDes data = Ok d ->
  d = JStr ("//转发自: " ++ text_of (wrapped data "apiSeasonInfo" "title")
              ++ text_of (episode_part data)).
Proof.
  intros Ht Hs H. pose proof (truthy_not_nullish _ Ht) as Hn.
  unfold getOriginDes in H.
  rewrite pand_Ok, Ht, (season_operand _ Hn), (episode_operand _ Hn), Hs in H.
  unfold padd in H.
  destruct (printed [wrapped data "apiSeasonInfo" "title"]
                    (JStr ("//转发自: "
                             ++ text_of (wrapped data "apiSeasonInfo" "title"))))
    as [season|e] eqn:Hseason; [|discriminate].
  apply printed_Ok_inv in Hseason as [_ ->]. cbn [bind] in H.
  assert (He : forall episode,
             (if truthy (optprop data "index_title")
              then printed [optprop data "index_title"]
                           (JStr ("<br>" ++ text_of (optprop data "index_title")))
              else Ok (optprop data "index_title")) = Ok episode ->
             episode = episode_part data).
  { intros episode. unfold episode_part.
    destruct (truthy (optprop data "index_title")); intros Hep.
    - apply printed_Ok_inv in Hep. tauto.
    - apply Ok_inj in Hep. auto. }
  destruct (if truthy (optprop data "index_title")
            then printed [optprop data "index_title"]
                         (JStr ("<br>" ++ text_of (optprop data "index_title")))
            else Ok (optprop data "index_title")) as [episode|e]; [|discriminate].
  rewrite (He episode eq_refl) in H. cbn [bind] in H.
  destruct (printed [JStr ("//转发自: "
                             ++ text_of (wrapped data "apiSeasonInfo" "title"));
                     episode_part data]
                    (js_add (JStr ("//转发自: "
                                     ++ text_of (wrapped data "apiSeasonInfo" "title")))
                            (episode_part data))) as [sum|e] eqn:Hsum;
    [|discriminate].
  apply printed_Ok_inv in Hsum as [_ ->].
  rewrite js_add_string, por_Ok in H. cbn [truthy append String.eqb negb] in H.
  apply Ok_inj in H. rewrite <- H. reflexivity.
Qed.

Lemma origin_prefix_none (origin : JV) :
  truthy origin = false -> origin_prefix origin = Ok "".
Proof.
  intros Hf. unfold origin_prefix, getOriginDes.
  rewrite !pand_Ok, Hf. cbn [bind]. rewrite Hf, por_Ok, Hf. reflexivity.
Qed.

(** The prefix of an origin with an author name, when it can be computed. *)
Lemma origin_prefix_named (origin : JV) (prefix : string) :
  truthy origin = true ->
  truthy (first_truthy (origin_name_candidates origin) (JStr "")) = true ->
  origin_prefix origin = Ok prefix ->
  exists origin_des,
    getDes (jor (optprop origin "item") origin) = Ok origin_des
    /\ prefix
       = "<br><br>//转发自: @"
           ++ text_of (first_truthy (origin_name_candidates origin) (JStr ""))
           ++ ": "
           ++ (if truthy (optprop (jor (optprop origin "item") origin) "title")
               then text_of (optprop (jor (optprop origin "item") origin) "title")
                      ++ "<br>"
               else "")
           ++ text_of origin_des.
Proof.
  intros Ht Hname H. pose proof (truthy_not_nullish _ Ht) as Hn.
  pose proof (origin_payload_not_nullish _ Ht) as Hp.
  unfold origin_prefix in H.
  rewrite pand_Ok, Ht, (getOriginName_defined _ Hn) in H. cbn [bind] in H.
  rewrite Hname in H.
  destruct (printed [first_truthy (origin_name_candidates origin) (JStr "")]
                    ("<br><br>//转发自: @"
                       ++ text_of (first_truthy (origin_name_candidates origin)
                                                (JStr "")) ++ ": "))
    as [label|e] eqn:Hlabel; [|discriminate].
  apply printed_Ok_inv in Hlabel as [_ ->]. cbn [bind] in H.
  rewrite (origin_payload_defined _ Hn) in H. cbn [bind] in H.
  rewrite (getOriginTitle_defined _ Hp) in H.
  destruct (getDes (jor (optprop origin "item") origin)) as [origin_des|e] eqn:Hdes.
  - exists origin_des. split; [reflexivity|].
    destruct (truthy (optprop (jor (optprop origin "item") origin) "title")).
    + destruct (printed [optprop (jor (optprop origin "item") origin) "title"]
                        (text_of (optprop (jor (optprop origin "item") origin)
                                          "title") ++ "<br>"))
        as [origin_title|e] eqn:Htitle; [|discriminate].
      apply printed_Ok_inv in Htitle as [_ ->]. cbn [bind] in H.
      apply printed_Ok_inv in H as [_ ->]. rewrite !append_assoc. reflexivity.
    + cbn [bind] in H. apply printed_Ok_inv in H as [_ ->].
      rewrite !append_assoc. reflexivity.
  - destruct (if truthy (optprop (jor (optprop origin "item") origin) "title")
              then printed [optprop (jor (optprop origin "item") origin) "title"]
                           (text_of (optprop (jor (optprop origin "item") origin)
                                             "title") ++ "<br>")
              else Ok ""); discriminate.
Qed.

(** The prefix of an origin without author name and with a seasonal title,
    when it can be computed. *)
Lemma origin_prefix_season (origin : JV) (prefix : string) :
  truthy origin = true ->
  truthy (first_truthy (origin_name_candidates origin) (JStr "")) = false ->
  truthy (wrapped origin "apiSeasonInfo" "title") = true ->
  origin_prefix origin = Ok prefix ->
  prefix = "//转发自: " ++ text_of (wrapped origin "apiSeasonInfo" "title")
             ++ text_of (episode_part origin).
Proof.
  intros Ht Hname Hs H. pose proof (truthy_not_nullish _ Ht) as Hn.
  unfold origin_prefix in H.
  rewrite pand_Ok, Ht, (getOriginName_defined _ Hn) in H. cbn [bind] in H.
  rewrite Hname in H.
  destruct (getOriginDes origin) as [d|e] eqn:Hd; [|discriminate].
  apply (getOriginDes_season _ _ Ht Hs) in Hd. subst d. cbn [bind] in H.
  apply printed_Ok_inv in H as [_ ->]. reflexivity.
Qed.

(** ** The permalink derived from the dynamic id *)

Lemma dynamic_link_defined (item data : JV) :
  nullish item = false -> nullish data = false ->
  dynamic_link item data
  = printed [jor (optprop data "dynamic_id")
                 (optprop (optprop item "desc") "dynamic_id")]
            (dynamic_id_link item data).
Proof.
  intros Hi Hd. unfold dynamic_link, dynamic_id_link, jor.
  rewrite (prop_defined _ _ Hd), (prop_defined _ _ Hi). cbn [bind].
  destruct (truthy (optprop data "dynamic_id")) eqn:Hid.
  - rewrite Hid. reflexivity.
  - destruct (truthy (optprop (optprop item "desc") "dynamic_id")) eqn:He.
    + assert (Hn : nullish (optprop item "desc") = false).
      { destruct (optprop item "desc"); simpl in He; try discriminate; reflexivity. }
      rewrite (prop_defined _ _ Hn). reflexivity.
    + rewrite printed_one, (falsy_printable _ He). reflexivity.
Qed.

Lemma dynamic_link_Ok_inv (item data link0 : JV) :
  dynamic_link item data = Ok link0 -> link0 = dynamic_id_link item data.
Proof.
  intros H.
  assert (Hd : nullish data = false).
  { unfold dynamic_link in H.
    destruct (data ~> "dynamic_id") eqn:Hp; [|discriminate].
    apply prop_Ok_inv in Hp. tauto. }
  destruct (nullish item) eqn:Hi.
  - unfold dynamic_link in H. unfold dynamic_id_link, jor.
    rewrite (prop_defined _ _ Hd) in H. cbn [bind] in H.
    destruct (truthy (optprop data "dynamic_id")) eqn:Hid.
    + rewrite Hid. apply printed_Ok_inv in H. tauto.
    + unfold prop in H. rewrite Hi in H. discriminate.
  - rewrite (dynamic_link_defined _ _ Hi Hd) in H.
    apply printed_Ok_inv in H. tauto.
Qed.

(** ** Line breaks *)

Lemma crlf_to_br_empty (s : string) : crlf_to_br s = "" -> s = "".
Proof.
  destruct s as [|c r]; [reflexivity|]. simpl.
  destruct r as [|c' r']; [discriminate|].
  destruct (Ascii.eqb c cr && Ascii.eqb c' lf); discriminate.
Qed.

Lemma lf_to_br_empty (s : string) : lf_to_br s = "" -> s = "".
Proof.
  destruct s as [|c r]; [reflexivity|]. simpl.
  destruct (Ascii.eqb c lf); discriminate.
Qed.

(** ** Visiting a list in order *)

Lemma mapM_Ok_iff {A B} (f : A -> Res B) (l : list A) (bs : list B) :
  mapM f l = Ok bs <-> Forall2 (fun a b => f a = Ok b) l bs.
Proof.
  revert bs. induction l as [|a l IH]; intros bs; simpl.
  - split.
    + intros H. injection H as <-. constructor.
    + intros H. inversion H. reflexivity.
  - split.
    + intros H. destruct (f a) as [b|e] eqn:Hfa; [|discriminate].
      cbn [bind] in H. destruct (mapM f l) as [bs'|e] eqn:Hm; [|discriminate].
      cbn [bind] in H. injection H as <-.
      constructor; [exact Hfa | apply IH; reflexivity].
    + intros H. inversion H as [|a' b l' bs' Hab Hrest]; subst.
      rewrite Hab. cbn [bind]. apply IH in Hrest. rewrite Hrest. reflexivity.
Qed.

Lemma mapM_fails {A B} (f : A -> Res B) (l : list A) (a : A) :
  In a l -> is_ok (f a) = false -> is_ok (mapM f l) = false.
Proof.
  induction l as [|x l IH]; simpl; [tauto|].
  intros [->|Hin] Hbad.
  - destruct (f a); [discriminate | reflexivity].
  - destruct (f x); [|reflexivity]. cbn [bind].
    specialize (IH Hin Hbad). destruct (mapM f l); [discriminate | reflexivity].
Qed.

Lemma mapM_Ok_no_failure {A B} (f : A -> Res B) (l : list A) (bs : list B) :
  mapM f l = Ok bs -> filter (fun a => negb (is_ok (f a))) l = [].
Proof.
  revert bs. induction l as [|a l IH]; intros bs; simpl; [reflexivity|].
  destruct (f a) as [b|e]; [|discriminate]. cbn [bind is_ok negb].
  destruct (mapM f l) as [bs'|e]; [|discriminate]. intros _.
  apply (IH bs'). reflexivity.
Qed.

(** ** The handler *)

Section HandlerProperties.

Variable JSONbig_parse : JV -> Res JV.
Variable unescape : string -> string.
Variable regexp_replaceAll : string -> Res (string -> string -> Res string).
Variable utils_iframe : JV -> Res string.
Variable getArticleDataFromCvid : JV -> string -> Res JV.
Variable Date : Type.
Variable parseDate : JV -> Res Date.
Variable uid : string.
Variables showEmoji disableEmbed displayArticle useAvid directLink : bool.

Local Abbreviation getUrl := (getUrl useAvid directLink).
Local Abbreviation getIframe := (getIframe utils_iframe disableEmbed).
Local Abbreviation videoHTML := (videoHTML unescape).
Local Abbreviation video_tag := (video_tag unescape).
Local Abbreviation body_text := (body_text regexp_replaceAll showEmoji).
Local Abbreviation full_article :=
  (full_article getArticleDataFromCvid uid displayArticle).
Local Abbreviation parse_origin := (parse_origin JSONbig_parse).
Local Abbreviation normalize :=
  (normalize unescape regexp_replaceAll utils_iframe getArticleDataFromCvid
             Date parseDate uid showEmoji disableEmbed displayArticle
             useAvid directLink).
Local Abbreviation handler_item :=
  (handler_item JSONbig_parse unescape regexp_replaceAll utils_iframe
                getArticleDataFromCvid Date parseDate uid showEmoji
                disableEmbed displayArticle useAvid directLink).
Local Abbreviation handler_items :=
  (handler_items JSONbig_parse unescape regexp_replaceAll utils_iframe
                 getArticleDataFromCvid Date parseDate uid showEmoji
                 disableEmbed displayArticle useAvid directLink).
Local Abbreviation failures :=
  (failures JSONbig_parse unescape regexp_replaceAll utils_iframe
            getArticleDataFromCvid Date parseDate uid showEmoji
            disableEmbed displayArticle useAvid directLink).

(** *** Link resolution *)

(** The resolver takes the first branch whose signal is present, and that
    branch prints one value of the payload into its URL. *)
Lemma getUrl_dispatch (item data link : JV) :
  getUrl item data link
  = match dispatch data with
    | Some b =>
        printed [branch_value useAvid item data b]
                (anchor (branch_label b) (branch_url useAvid item data b),
                 if directLink then branch_url useAvid item data b else link)
    | None => Ok ("", link)
    end.
Proof.
  unfold Dynamic.getUrl.
  destruct (truthy data) eqn:Ht; cbn [negb].
  - pose proof (truthy_not_nullish _ Ht) as Hn.
    unfold dispatch, dispatch_order, signal. cbn [find signal_field].
    rewrite !(prop_defined _ _ Hn). cbn [bind].
    destruct (truthy (optprop data "aid")).
    { cbn [branch_value branch_url branch_label]. rewrite !printed_one.
      destruct useAvid.
      - destruct (printable (optprop data "aid")); reflexivity.
      - cbn [bind]. rewrite ?printed_one.
        destruct (printable
                    (jor (optprop (optprop item "desc") "bvid")
                         (optprop (optprop (optprop item "desc") "origin")
                                  "bvid"))); reflexivity. }
    destruct (truthy (optprop data "image_urls")).
    { cbn [branch_value branch_url branch_label]. rewrite !printed_one.
      destruct (printable (optprop data "id")); reflexivity. }
    destruct (truthy (optprop data "upper")).
    { cbn [branch_value branch_url branch_label]. rewrite !printed_one.
      destruct (printable (optprop data "id")); reflexivity. }
    destruct (truthy (optprop data "roomid")).
    { cbn [branch_value branch_url branch_label]. rewrite !printed_one.
      destruct (printable (optprop data "roomid")); reflexivity. }
    destruct (truthy (optprop data "sketch")) eqn:Hs.
    { rewrite (prop_defined _ _ (truthy_not_nullish _ Hs)). reflexivity. }
    destruct (truthy (optprop data "url")); reflexivity.
  - destruct data as [| | |b|z|s|l|fields]; simpl in Ht; try discriminate;
      reflexivity.
Qed.

Lemma dispatch_only (data : JV) (b : Branch) :
  signal data b = true ->
  (forall b', b' <> b -> signal data b' = false) ->
  dispatch data = Some b.
Proof.
  intros Hb Hother. unfold dispatch, dispatch_order. cbn [find].
  destruct b;
    repeat match goal with
           | |- context [signal data ?c] =>
               first [ rewrite Hb
                     | rewrite (Hother c) by discriminate ]
           end; reflexivity.
Qed.

Lemma dispatch_none (data : JV) :
  (forall b, signal data b = false) -> dispatch data = None.
Proof.
  intros Hnone. unfold dispatch, dispatch_order. cbn [find].
  rewrite !Hnone. reflexivity.
Qed.

(** C7, as amended.  Link resolution is first-match-wins over the six
    signals in their fixed order.  The branch taken prints one value of the
    payload into its URL (the video id, the article or audio id, the room
    id, the target URL of the sketch, the URL): when that value can be
    printed the fragment is the labelled anchor line of that branch with
    its URL, and when it is an object, or an array that holds one, the
    resolver throws a TypeError.  So a payload with exactly one signal gets
    the URL and the anchor line of that branch, whatever else is absent,
    provided the value prints; a payload with no signal gets the empty
    fragment and leaves the permalink alone. *)
Theorem getUrl_exclusive (item data link : JV) :
  getUrl item data link
  = match find (signal data) [Video; Article; Audio; Live; Campaign; Generic] with
    | Some b =>
        if printable (branch_value useAvid item data b)
        then Ok (anchor (branch_label b) (branch_url useAvid item data b),
                 if directLink then branch_url useAvid item data b else link)
        else Err TypeError
    | None => Ok ("", link)
    end
  /\ (forall b,
        signal data b = true ->
        (forall b', b' <> b -> signal data b' = false) ->
        getUrl item data link
        = if printable (branch_value useAvid item data b)
          then Ok (anchor (branch_label b) (branch_url useAvid item data b),
                   if directLink then branch_url useAvid item data b else link)
          else Err TypeError)
  /\ ((forall b, signal data b = false) ->
      getUrl item data link = Ok ("", link)).
Proof.
  split; [|split].
  - rewrite getUrl_dispatch. unfold dispatch, dispatch_order.
    destruct (find (signal data) [Video; Article; Audio; Live; Campaign; Generic]);
      [apply printed_one | reflexivity].
  - intros b Hb Hother. rewrite getUrl_dispatch.
    rewrite (dispatch_only _ _ Hb Hother). apply printed_one.
  - intros Hnone. rewrite getUrl_dispatch, (dispatch_none _ Hnone). reflexivity.
Qed.

(** The resolver, when it returns: the anchor line and the permalink of the
    first branch whose signal is present. *)
Lemma getUrl_Ok_inv (item data link : JV) (fragment : string) (link' : JV) :
  getUrl item data link = Ok (fragment, link') ->
  link' = match content_url useAvid item data with
          | Some url => if directLink then url else link
          | None => link
          end.
Proof.
  rewrite getUrl_dispatch. unfold content_url.
  destruct (dispatch data) as [b|]; cbn [option_map]; intros H.
  - apply printed_Ok_inv in H as [_ H]. injection H as _ ->. reflexivity.
  - injection H as _ <-. reflexivity.
Qed.

(** *** The pieces of a normalised item *)

Lemma normalize_Ok_inv (author item data origin : JV) (it : Item Date) :
  normalize author item data origin = Ok it ->
  exists imgs video link0 data_content data_content' body originName
         url_data link1 url_origin iframe_data iframe_origin,
    imgHTML data origin = Ok imgs
    /\ videoHTML data = Ok video
    /\ dynamic_link item data = Ok link0
    /\ body_text item data = Ok data_content
    /\ full_article data data_content = Ok data_content'
    /\ (Ok data_content' <||> getDes data) = Ok body
    /\ origin_prefix origin = Ok originName
    /\ printable body = true
    /\ getUrl item data link0 = Ok (url_data, link1)
    /\ getUrl item origin link1 = Ok (url_origin, link it)
    /\ getIframe data = Ok iframe_data
    /\ getIframe origin = Ok iframe_origin
    /\ getTitle data = Ok (title it)
    /\ description it
       = assemble body originName url_data url_origin iframe_data
                  iframe_origin imgs video.
Proof.
  intros H. unfold Dynamic.normalize in H.
  apply bind_Ok_inv in H as (imgs & Himgs & H).
  apply bind_Ok_inv in H as (video & Hvideo & H).
  apply bind_Ok_inv in H as (link0 & Hlink0 & H).
  apply bind_Ok_inv in H as (dc & Hdc & H).
  apply bind_Ok_inv in H as (dc' & Hdc' & H).
  apply bind_Ok_inv in H as (ttl & Httl & H).
  apply bind_Ok_inv in H as (body & Hbody & H).
  apply bind_Ok_inv in H as (originName & Hprefix & H).
  apply bind_Ok_inv in H as (body' & Hprint & H).
  apply printed_Ok_inv in Hprint as [Hprint ->].
  apply bind_Ok_inv in H as ([url_data link1] & Hdata & H).
  apply bind_Ok_inv in H as ([url_origin link2] & Horigin & H).
  apply bind_Ok_inv in H as (iframe_data & Hiframe & H).
  apply bind_Ok_inv in H as (iframe_origin & Hiframe_o & H).
  apply bind_Ok_inv in H as (desc & Hdesc & H).
  apply bind_Ok_inv in H as (date & Hdate & H).
  apply Ok_inj in H. subst it. cbn [link title description].
  cbn [forallb] in Hprint. rewrite andb_true_r in Hprint.
  exists imgs, video, link0, dc, dc', body, originName, url_data, link1,
    url_origin, iframe_data, iframe_origin.
  repeat (split; [assumption|]). reflexivity.
Qed.

(** C6.  The permalink of an item: with [directLink] the content URL the
    link resolver found, the origin's before the main payload's since its
    write comes second; without [directLink], or when no content URL was
    resolved, the link derived from the dynamic id. *)
Theorem permalink_selection (author item data origin : JV) (it : Item Date) :
  normalize author item data origin = Ok it ->
  link it
  = if directLink
    then match content_url useAvid item origin, content_url useAvid item data with
         | Some url, _ => url
         | None, Some url => url
         | None, None => dynamic_id_link item data
         end
    else dynamic_id_link item data.
Proof.
  intros H. apply normalize_Ok_inv in H.
  destruct H as (imgs & video & link0 & dc & dc' & body & originName & url_data
                 & link1 & url_origin & iframe_data & iframe_origin & _ & _
                 & Hlink0 & _ & _ & _ & _ & _ & Hdata & Horigin & _).
  apply dynamic_link_Ok_inv in Hlink0. subst link0.
  apply getUrl_Ok_inv in Hdata, Horigin. rewrite Horigin, Hdata.
  destruct (content_url useAvid item origin), (content_url useAvid item data),
    directLink; reflexivity.
Qed.

(** *** Body and repost prefix *)

(** Without emoji substitution and without the full text of an article the
    body is the description of the payload with its line breaks as [<br>]. *)
Lemma plain_body (item data : JV) (content : string) (content' body : JV) :
  body_text item data = Ok content ->
  full_article data content = Ok content' ->
  (Ok content' <||> getDes data) = Ok body ->
  (showEmoji = false
   \/ truthy (optprop (optprop item "display") "emoji_info") = false) ->
  (displayArticle = false \/ truthy (optprop data "image_urls") = false) ->
  exists s, getDes data = Ok (JStr s) /\ body = JStr (lf_to_br (crlf_to_br s)).
Proof.
  intros Hbody Harticle Hor Hemoji Hmode.
  unfold Dynamic.body_text in Hbody.
  destruct (getDes data) as [des|e] eqn:Hdes; [|discriminate].
  pose proof (proj1 (getDes_Ok_inv _ _ Hdes)) as Hn.
  cbn [bind] in Hbody.
  destruct des as [| | |b|z|s|l|fields]; try discriminate.
  cbn [bind] in Hbody.
  assert (Hcontent : content = lf_to_br (crlf_to_br s)).
  { destruct (item ~> "display") as [display|e] eqn:Hdisplay; [|discriminate].
    apply prop_Ok_inv in Hdisplay as [_ ->]. cbn [bind] in Hbody.
    destruct (optprop item "display" ~> "emoji_info") as [info|e] eqn:Hinfo;
      [|discriminate].
    apply prop_Ok_inv in Hinfo as [_ ->]. cbn [bind] in Hbody.
    replace (truthy (optprop (optprop item "display") "emoji_info") && showEmoji)
      with false in Hbody.
    - apply Ok_inj in Hbody. auto.
    - destruct Hemoji as [-> | ->]; [rewrite andb_false_r|]; reflexivity. }
  assert (Hcontent' : content' = JStr content).
  { unfold Dynamic.full_article in Harticle.
    rewrite (prop_defined _ _ Hn) in Harticle. cbn [bind] in Harticle.
    replace (truthy (optprop data "image_urls") && displayArticle)
      with false in Harticle.
    - apply Ok_inj in Harticle. auto.
    - destruct Hmode as [-> | ->]; [rewrite andb_false_r|]; reflexivity. }
  subst content' content. exists s. split; [reflexivity|].
  rewrite por_Ok in Hor.
  destruct (truthy (JStr (lf_to_br (crlf_to_br s)))) eqn:Ht.
  - apply Ok_inj in Hor. auto.
  - apply Ok_inj in Hor. subst body.
    cbn [truthy] in Ht. apply negb_false_iff, String.eqb_eq in Ht.
    rewrite Ht. apply lf_to_br_empty, crlf_to_br_empty in Ht. rewrite Ht.
    reflexivity.
Qed.

(** C9, as amended.  The description is the body, the repost prefix, a
    line break and the link, embed, image and video fragments, in this
    order.  For an origin with an author name the prefix is
    [<br><br>//转发自: @name: ] followed by the title of the origin payload
    with its line break and by the description of the origin payload.  For
    an origin without author name but with a seasonal title the prefix
    starts with [//转发自: ] and that title, and goes on with [<br>] and the
    episode title when the origin has one, with nothing when the episode
    title is the empty string.  An entry without origin has the
    empty prefix and no origin fragment: its description is made of its own
    body and fragments only. *)
Theorem repost_prefix (author item data origin : JV) (it : Item Date) :
  normalize author item data origin = Ok it ->
  exists content content' body prefix url_data link1 url_origin
         iframe_data iframe_origin imgs video,
    (body_text item data = Ok content
     /\ full_article data content = Ok content'
     /\ (Ok content' <||> getDes data) = Ok body
     /\ ((showEmoji = false
          \/ truthy (optprop (optprop item "display") "emoji_info") = false) ->
         (displayArticle = false
          \/ truthy (optprop data "image_urls") = false) ->
         exists s, getDes data = Ok (JStr s)
                   /\ body = JStr (lf_to_br (crlf_to_br s))))
    /\ description it
       = text_of body ++ prefix ++ "<br>"
           ++ url_data ++ url_origin ++ iframe_data ++ iframe_origin
           ++ (if String.eqb imgs "" then "" else "<br>" ++ imgs)
           ++ (if String.eqb video "" then "" else "<br>" ++ video)
    /\ (getUrl item data (dynamic_id_link item data) = Ok (url_data, link1)
        /\ getUrl item origin link1 = Ok (url_origin, link it)
        /\ getIframe data = Ok iframe_data
        /\ getIframe origin = Ok iframe_origin
        /\ imgHTML data origin = Ok imgs
        /\ videoHTML data = Ok video)
    /\ (truthy origin = true ->
        truthy (origin_name origin) = true ->
        exists origin_des,
          getDes (origin_item origin) = Ok origin_des
          /\ prefix = "<br><br>//转发自: @" ++ text_of (origin_name origin) ++ ": "
                        ++ origin_title_prefix (origin_item origin)
                        ++ text_of origin_des
          /\ (optprop (origin_item origin) "vest" = JUndef ->
              optprop (origin_item origin) "sketch" = JUndef ->
              origin_des
              = first_truthy [optprop (origin_item origin) "dynamic";
                              optprop (origin_item origin) "desc";
                              optprop (origin_item origin) "description";
                              optprop (origin_item origin) "content";
                              optprop (origin_item origin) "summary";
                              optprop (origin_item origin) "intro"] (JStr "")))
    /\ (truthy origin = true ->
        truthy (origin_name origin) = false ->
        truthy (wrapped origin "apiSeasonInfo" "title") = true ->
        exists tail,
          prefix = "//转发自: " ++ text_of (wrapped origin "apiSeasonInfo" "title")
                     ++ tail
          /\ (truthy (optprop origin "index_title") = true ->
              tail = "<br>" ++ text_of (optprop origin "index_title"))
          /\ (optprop origin "index_title" = JStr "" -> tail = ""))
    /\ (truthy origin = false ->
        prefix = "" /\ url_origin = "" /\ iframe_origin = ""
        /\ getImgs data = Ok imgs).
Proof.
  intros H. apply normalize_Ok_inv in H.
  destruct H as (imgs & video & link0 & dc & dc' & body & originName & url_data
                 & link1 & url_origin & iframe_data & iframe_origin & Himgs
                 & Hvideo & Hlink0 & Hdc & Hdc' & Hbody & Hprefix & _ & Hdata
                 & Horigin & Hiframe & Hiframe_o & _ & Hdesc).
  apply dynamic_link_Ok_inv in Hlink0. subst link0.
  exists dc, dc', body, originName, url_data, link1, url_origin, iframe_data,
    iframe_origin, imgs, video.
  split; [|split; [|split; [|split; [|split]]]].
  - repeat (split; [assumption|]). apply (plain_body _ _ _ _ _ Hdc Hdc' Hbody).
  - rewrite Hdesc. reflexivity.
  - repeat (split; [assumption|]). assumption.
  - intros Ht Hname.
    destruct (origin_prefix_named _ _ Ht Hname Hprefix) as (origin_des & Hdes & ->).
    exists origin_des. split; [exact Hdes|]. split; [reflexivity|].
    intros Hvest Hsketch.
    rewrite (getDes_without_campaign
               _ (origin_payload_not_nullish _ Ht) Hvest Hsketch) in Hdes.
    apply Ok_inj in Hdes. auto.
  - intros Ht Hname Hseason.
    rewrite (origin_prefix_season _ _ Ht Hname Hseason Hprefix).
    exists (text_of (episode_part origin)). split; [reflexivity|].
    split; intros Hep; unfold episode_part; rewrite Hep; reflexivity.
  - intros Hf. rewrite (origin_prefix_none _ Hf) in Hprefix.
    apply Ok_inj in Hprefix.
    unfold Dynamic.getUrl in Horigin. rewrite Hf in Horigin.
    cbn [negb] in Horigin. apply Ok_inj in Horigin.
    assert (Hio : iframe_origin = "").
    { unfold Dynamic.getIframe in Hiframe_o. rewrite Hf in Hiframe_o.
      destruct disableEmbed; apply Ok_inj in Hiframe_o; auto. }
    unfold imgHTML in Himgs.
    destruct (getImgs data) as [imgs0|e] eqn:Hg; [|discriminate].
    cbn [bind] in Himgs. rewrite Hf in Himgs. apply Ok_inj in Himgs.
    repeat split; congruence.
Qed.

(** *** Entries that throw *)

Lemma body_text_needs_display (item data : JV) :
  nullish (optprop item "display") = true ->
  is_ok (body_text item data) = false.
Proof.
  intros Hd. unfold Dynamic.body_text.
  apply is_ok_bind; intros des _. apply is_ok_bind; intros with_br _.
  unfold prop at 1. destruct (nullish item); [reflexivity|]. cbn [bind].
  unfold prop at 1. rewrite Hd. reflexivity.
Qed.

Lemma normalize_needs_display (author item data origin : JV) :
  nullish (optprop item "display") = true ->
  is_ok (normalize author item data origin) = false.
Proof.
  intros Hd. unfold Dynamic.normalize.
  apply is_ok_bind; intros imgs _. apply is_ok_bind; intros video _.
  apply is_ok_bind; intros link0 _.
  rewrite (is_ok_bind (body_text item data)); [reflexivity|].
  intros dc Hdc. pose proof (body_text_needs_display item data Hd) as Hbad.
  rewrite Hdc in Hbad. discriminate.
Qed.

(** C1.  An entry without a [display] sub-record never yields an item: the
    handler reads [item.display.emoji_info] without a guard and throws,
    whatever the payload and the options. *)
Theorem handler_item_needs_display (author item : JV) :
  nullish (optprop item "display") = true ->
  is_ok (handler_item author item) = false.
Proof.
  intros Hd. unfold Dynamic.handler_item.
  apply is_ok_bind; intros parsed _. apply is_ok_bind; intros data _.
  apply is_ok_bind; intros origin _.
  apply normalize_needs_display, Hd.
Qed.

(** The feed owner's name has the same defect: [info.uname] is read without
    the guard that [info?.face] has. *)
Lemma resolve_author_needs_info (cached : JV) (cards : list JV) :
  nullish cached = true ->
  nullish (first_profile cards) = false ->
  nullish (optprop (first_profile cards) "info") = true ->
  resolve_author cached cards = Err TypeError.
Proof.
  intros Hc Hp Hi. unfold resolve_author. rewrite Hc, Hp.
  rewrite (prop_defined _ _ Hp). cbn [bind]. unfold prop. rewrite Hi. reflexivity.
Qed.

(** *** The batch *)

(** The batch gives the items exactly when visiting the entries in order
    does, and fails as soon as one entry does. *)
Lemma handler_items_Ok_iff (author : JV) (cards : list JV) (items : list (Item Date)) :
  handler_items author cards = Ok items
  <-> mapM (handler_item author) cards = Ok items.
Proof.
  unfold Dynamic.handler_items. split.
  - destruct (1 <? failures author cards)%nat; [discriminate | auto].
  - intros H. unfold Dynamic.failures.
    rewrite (mapM_Ok_no_failure _ _ _ H). exact H.
Qed.

Lemma handler_items_fails (author : JV) (cards : list JV) (item : JV) :
  In item cards ->
  is_ok (handler_item author item) = false ->
  is_ok (handler_items author cards) = false.
Proof.
  intros Hin Hbad. unfold Dynamic.handler_items.
  destruct (1 <? failures author cards)%nat; [reflexivity|].
  apply (mapM_fails _ _ _ Hin Hbad).
Qed.

Lemma normalize_needs_article (author item data origin : JV) :
  truthy (optprop data "image_urls") = true ->
  displayArticle = true ->
  is_ok (getArticleDataFromCvid (optprop data "id") uid) = false ->
  is_ok (normalize author item data origin) = false.
Proof.
  intros Hurls Hmode Hdown. unfold Dynamic.normalize.
  apply is_ok_bind; intros imgs _. apply is_ok_bind; intros video _.
  apply is_ok_bind; intros link0 _. apply is_ok_bind; intros dc _.
  assert (Hn : nullish data = false).
  { destruct data; simpl in Hurls; try discriminate; reflexivity. }
  unfold Dynamic.full_article. rewrite !(prop_defined _ _ Hn). cbn [bind].
  rewrite Hurls, Hmode. cbn [andb bind].
  destruct (getArticleDataFromCvid (optprop data "id") uid);
    [discriminate | reflexivity].
Qed.

(** C2.  The batch is all or nothing: it is fulfilled with the items of all
    entries, in order, exactly when every entry normalises, and any entry
    that fails rejects it.  An article entry whose full-text fetch fails, and
    an entry whose origin payload does not parse, are such entries. *)
Theorem batch_all_or_nothing (author : JV) (cards : list JV) :
  (forall items,
      handler_items author cards = Ok items
      <-> Forall2 (fun item it => handler_item author item = Ok it) cards items)
  /\ (forall item,
        In item cards ->
        is_ok (handler_item author item) = false ->
        is_ok (handler_items author cards) = false)
  /\ (forall item card parsed data,
        item ~> "card" = Ok card ->
        JSONbig_parse card = Ok parsed ->
        select_data parsed = Ok data ->
        truthy (optprop data "image_urls") = true ->
        displayArticle = true ->
        is_ok (getArticleDataFromCvid (optprop data "id") uid) = false ->
        is_ok (handler_item author item) = false)
  /\ (forall item card parsed,
        item ~> "card" = Ok card ->
        JSONbig_parse card = Ok parsed ->
        truthy (optprop parsed "origin") = true ->
        is_ok (JSONbig_parse (optprop parsed "origin")) = false ->
        is_ok (handler_item author item) = false).
Proof.
  split; [|split; [|split]].
  - intros items. rewrite handler_items_Ok_iff. apply mapM_Ok_iff.
  - intros item Hin Hbad. apply (handler_items_fails _ _ _ Hin Hbad).
  - intros item card parsed data Hcard Hparsed Hdata Hurls Hmode Hdown.
    unfold Dynamic.handler_item. rewrite Hcard. cbn [bind].
    rewrite Hparsed. cbn [bind]. rewrite Hdata. cbn [bind].
    apply is_ok_bind; intros origin _.
    apply normalize_needs_article; assumption.
  - intros item card parsed Hcard Hparsed Horigin Hbad.
    unfold Dynamic.handler_item. rewrite Hcard. cbn [bind].
    rewrite Hparsed. cbn [bind].
    apply is_ok_bind; intros data _.
    unfold Dynamic.parse_origin.
    assert (Hn : nullish parsed = false).
    { destruct parsed; simpl in Horigin; try discriminate; reflexivity. }
    rewrite (prop_defined _ _ Hn). cbn [bind]. rewrite Horigin.
    destruct (JSONbig_parse (optprop parsed "origin"));
      [discriminate | reflexivity].
Qed.

(** *** Payload selection *)



(** *** Inline video *)

(** The element is emitted whenever the payload has a video-stream URL and
    its width, height and URL can be printed. *)
Lemma videoHTML_defined (data : JV) :
  nullish data = false ->
  videoHTML data
  = if truthy (optprop data "video_playurl")
    then printed [optprop data "width"; optprop data "height";
                  optprop data "video_playurl"] (video_tag data)
    else Ok "".
Proof.
  intros Hn. unfold Dynamic.videoHTML. rewrite !(prop_defined _ _ Hn).
  cbn [bind]. destruct (truthy (optprop data "video_playurl")); reflexivity.
Qed.

(** C4.  A payload with a video-stream URL gets the [<video>] element, with
    the https source first and the plain source second, at the end of the
    description; the handler does not consult [disableEmbed] for it. *)
Theorem video_ignores_disableEmbed (author item data origin : JV) (it : Item Date) :
  normalize author item data origin = Ok it ->
  truthy (optprop data "video_playurl") = true ->
  exists before, description it = before ++ "<br>" ++ video_tag data.
Proof.
  intros H Hv. apply normalize_Ok_inv in H.
  destruct H as (imgs & video & link0 & dc & dc' & body & originName & url_data
                 & link1 & url_origin & iframe_data & iframe_origin & _
                 & Hvideo & _ & _ & _ & _ & _ & _ & _ & _ & _ & _ & _ & Hdesc).
  assert (Hn : nullish data = false).
  { destruct data; simpl in Hv; try discriminate; reflexivity. }
  rewrite (videoHTML_defined _ Hn), Hv in Hvideo.
  apply printed_Ok_inv in Hvideo as [_ ->].
  rewrite Hdesc. unfold assemble.
  replace (String.eqb (video_tag data) "") with false by reflexivity.
  eexists. rewrite <- !append_assoc. reflexivity.
Qed.

End HandlerProperties.

(** ** Emoji substitution switched off *)

(** Without [showEmoji] the body is the description with its line breaks
    turned into [<br>]: no pattern is built and the engine is not called,
    whether or not the entry carries an emoji table. *)
Lemma body_text_emoji_off
      (regexp_replaceAll : string -> Res (string -> string -> Res string))
      (item data : JV) (text : string) :
  body_text regexp_replaceAll false item data = Ok text ->
  exists des, getDes data = Ok (JStr des) /\ text = lf_to_br (crlf_to_br des).
Proof.
  unfold body_text. intros H.
  destruct (getDes data) as [des|e]; [|discriminate]. cbn [bind] in H.
  destruct des as [| | |b|z|s|l|fields]; try discriminate. cbn [bind] in H.
  destruct (item ~> "display" ~>> "emoji_info") as [info|e]; [|discriminate].
  cbn [bind] in H. rewrite andb_false_r in H. injection H as <-.
  exists s. split; reflexivity.
Qed.

(** ** Runs on the sample entries *)

Section Runs.

Import Runtime Samples.

(** The well-formed entry of the round-trip scenario normalises. *)
Example run_entry_plain :
  run_item false false false false false article_down entry_plain
  = Ok (mkItem (JStr "T") "D<br>" (Some "1600000000")
               (JStr "https://t.bilibili.com/123") (JStr "up")).
Proof. vm_compute. reflexivity. Qed.

(** The scenario as the specification writes it, without [display]. *)
Example run_entry_no_display :
  run_item false false false false false article_down entry_no_display
  = Err TypeError.
Proof. vm_compute. reflexivity. Qed.

Lemma handler_item_needs_display_witness :
  is_ok (run_item false false false false false article_down entry_no_display)
  = false.
Proof.
  unfold run_item. apply handler_item_needs_display. reflexivity.
Defined.

(** A per-entry failure does abort the batch: one entry whose article fetch
    is rejected, or whose origin does not parse, rejects a batch whose other
    entry normalises on its own. *)
Lemma batch_aborts_on_one_entry :
  is_ok (run_item false false true false false article_down entry_plain) = true
  /\ run_items false false true false false article_down
               [entry_plain; entry_article] = Err Rejected
  /\ run_items false false false false false article_down
               [entry_plain; entry_bad_origin] = Err SyntaxError.
Proof. vm_compute. repeat split. Qed.

Lemma batch_all_or_nothing_witness :
  is_ok (run_items false false true false false article_down
                   [entry_plain; entry_article]) = false
  /\ is_ok (run_items false false false false false article_down
                      [entry_plain; entry_bad_origin]) = false.
Proof.
  unfold run_items. split.
  - destruct (batch_all_or_nothing JSONbig_parse unescape regexp_replaceAll
                utils_iframe article_down string parseDate "2267573"
                false false true false false (JStr "up")
                [entry_plain; entry_article]) as (_ & Hfails & Harticle & _).
    apply (Hfails entry_article); [simpl; auto|].
    eapply Harticle.
    + reflexivity.
    + vm_compute. reflexivity.
    + vm_compute. reflexivity.
    + reflexivity.
    + reflexivity.
    + reflexivity.
  - destruct (batch_all_or_nothing JSONbig_parse unescape regexp_replaceAll
                utils_iframe article_down string parseDate "2267573"
                false false false false false (JStr "up")
                [entry_plain; entry_bad_origin]) as (_ & Hfails & _ & Horigin).
    apply (Hfails entry_bad_origin); [simpl; auto|].
    eapply Horigin.
    + reflexivity.
    + vm_compute. reflexivity.
    + reflexivity.
    + reflexivity.
Defined.

(** C3.  With [showEmoji] set, the pattern built for the token [[doge]] is
    two question marks, one character out of [?doge] and a question mark:
    the occurrence of the token in the body stays as it is, and the text
    [??d?], which is no token, is replaced by the image. *)
Theorem emoji_token_not_substituted :
  emoji_pattern (JStr "[doge]") = "\?\?[\?d\?o\?g\?e\?]\?"
  /\ exists it,
       run_item true false false false false article_down entry_emoji = Ok it
       /\ description it
          = "hi [doge] " ++ emoji_img (JStr "[doge]") (JStr "U") ++ "<br>".
Proof.
  split; [reflexivity|]. eexists. split; vm_compute; reflexivity.
Qed.

Lemma video_ignores_disableEmbed_witness :
  exists it before,
    run_normalize false true false false false entry_plain
                  (JObj [("description", JStr "D");
                         ("video_playurl", JStr "http://v/1.mp4");
                         ("width", JNum 1); ("height", JNum 2)]) JNull = Ok it
    /\ description it
       = before ++ "<br><video width=" ++ dq ++ "1" ++ dq ++ " height=" ++ dq
           ++ "2" ++ dq ++ " controls><source src=" ++ dq ++ "https://v/1.mp4"
           ++ dq ++ "><source src=" ++ dq ++ "http://v/1.mp4" ++ dq
           ++ "></video>".
Proof.
  unfold run_normalize.
  match goal with
  | |- exists it before, ?run = _ /\ _ =>
      destruct run as [it|e] eqn:Hrun; [|vm_compute in Hrun; discriminate]
  end.
  apply video_ignores_disableEmbed in Hrun as [before Hbefore]; [|reflexivity].
  exists it, before. split; [reflexivity | exact Hbefore].
Defined.

(** The same at the level of the raw entry. *)
Example run_entry_video_embed_disabled :
  exists it,
    run_item false true false false false article_down entry_video = Ok it
    /\ description it
       = "D<br><br>" ++ video_tag unescape
                                  (JObj [("video_playurl", JStr "http://v/1.mp4");
                                         ("width", JNum 1); ("height", JNum 2)]).
Proof. eexists. split; vm_compute; reflexivity. Qed.

Lemma permalink_selection_witness :
  (exists it,
      run_normalize false false false false true entry_repost data_live origin_video
      = Ok it
      /\ link it = JStr "https://www.bilibili.com/video/BV1xx")
  /\ (exists it,
        run_normalize false false false false false entry_repost data_live origin_video
        = Ok it
        /\ link it = JStr "https://t.bilibili.com/123").
Proof.
  unfold run_normalize. split.
  - match goal with
    | |- exists it, ?run = _ /\ _ =>
        destruct run as [it|e] eqn:Hrun; [|vm_compute in Hrun; discriminate]
    end.
    exists it. split; [reflexivity|].
    apply permalink_selection in Hrun as ->. reflexivity.
  - match goal with
    | |- exists it, ?run = _ /\ _ =>
        destruct run as [it|e] eqn:Hrun; [|vm_compute in Hrun; discriminate]
    end.
    exists it. split; [reflexivity|].
    apply permalink_selection in Hrun as ->. reflexivity.
Defined.

(** A payload with exactly one signal, the generic [url], whose value is an
    object: the resolver yields no URL and no anchor line, it throws, and so
    does the handler on an entry with that payload. *)
Lemma getUrl_object_url_throws :
  map (signal data_url_object) dispatch_order
  = [false; false; false; false; false; true]
  /\ getUrl false false entry_plain data_url_object
            (JStr "https://t.bilibili.com/123") = Err TypeError
  /\ run_item false false false false false article_down entry_url_object
     = Err TypeError.
Proof. vm_compute. repeat split. Qed.

Lemma getUrl_exclusive_witness :
  getUrl false true entry_repost data_live (JStr "https://t.bilibili.com/123")
  = Ok ("<br>直播间地址：<a href=https://live.bilibili.com/5>https://live.bilibili.com/5</a>",
        JStr "https://live.bilibili.com/5")
  /\ getUrl false true entry_repost data_url_object
            (JStr "https://t.bilibili.com/123") = Err TypeError
  /\ getUrl false true entry_repost (JObj [("content", JStr "x")])
            (JStr "https://t.bilibili.com/123")
     = Ok ("", JStr "https://t.bilibili.com/123").
Proof.
  split; [|split].
  - rewrite (proj1 (proj2 (getUrl_exclusive false true entry_repost data_live
                             (JStr "https://t.bilibili.com/123"))) Live).
    + reflexivity.
    + reflexivity.
    + intros b' Hne. destruct b'; try reflexivity. exfalso. apply Hne. reflexivity.
  - rewrite (proj1 (proj2 (getUrl_exclusive false true entry_repost
                             data_url_object
                             (JStr "https://t.bilibili.com/123"))) Generic).
    + reflexivity.
    + reflexivity.
    + intros b' Hne. destruct b'; try reflexivity. exfalso. apply Hne. reflexivity.
  - apply (proj2 (proj2 (getUrl_exclusive false true entry_repost
                           (JObj [("content", JStr "x")])
                           (JStr "https://t.bilibili.com/123")))).
    intros b. destruct b; reflexivity.
Defined.

(** An entry without origin whose own text quotes a repost line: the
    description holds the text [//转发自: @] all the same. *)
Lemma own_text_quotes_repost :
  (parsed <- JSONbig_parse card_quoting ;; parse_origin JSONbig_parse parsed)
  = Ok JNull
  /\ exists it,
       run_item false false false false false article_down entry_quoting = Ok it
       /\ description it = "//转发自: @bob<br>"
       /\ contains "//转发自: @" (description it) = true.
Proof.
  split; [vm_compute; reflexivity|].
  eexists. split; [vm_compute; reflexivity|]. split; vm_compute; reflexivity.
Qed.

(** The pieces of a run without emoji substitution and full text, once the
    theorem on the description has been applied to it. *)
Ltac run_pieces Hplain Hu Hi Hv :=
  let s := fresh "s" in
  let Hs := fresh "Hs" in
  destruct (Hplain (or_introl eq_refl) (or_introl eq_refl)) as (s & Hs & ->);
  vm_compute in Hs; apply Ok_inj in Hs; injection Hs as <-;
  vm_compute in Hu; apply Ok_inj in Hu; injection Hu as <- <-;
  vm_compute in Hi; apply Ok_inj in Hi; subst;
  vm_compute in Hv; apply Ok_inj in Hv; subst.

Lemma repost_prefix_witness :
  (exists it,
      run_normalize false false false false false entry_repost data_live origin_video
      = Ok it
      /\ description it
         = "look" ++ "<br><br>//转发自: @bob: V<br>about" ++ "<br>"
             ++ "<br>直播间地址：<a href=https://live.bilibili.com/5>https://live.bilibili.com/5</a>"
             ++ "<br>视频地址：<a href=https://www.bilibili.com/video/BV1xx>https://www.bilibili.com/video/BV1xx</a>"
             ++ "<br><br><iframe aid=7></iframe><br>")
  /\ (exists it,
        run_normalize false false false false false entry_repost data_live origin_season
        = Ok it
        /\ description it
           = "look" ++ "//转发自: S<br>E1" ++ "<br>"
               ++ "<br>直播间地址：<a href=https://live.bilibili.com/5>https://live.bilibili.com/5</a>")
  /\ (exists it,
        run_normalize false false false false false entry_repost data_live JNull
        = Ok it
        /\ description it
           = "look" ++ "" ++ "<br>"
               ++ "<br>直播间地址：<a href=https://live.bilibili.com/5>https://live.bilibili.com/5</a>").
Proof.
  unfold run_normalize. split; [|split].
  - match goal with
    | |- exists it, ?run = _ /\ _ =>
        destruct run as [it|e] eqn:Hrun; [|vm_compute in Hrun; discriminate]
    end.
    exists it. split; [reflexivity|]. apply repost_prefix in Hrun
      as (content & content' & body & prefix & url_data & link1 & url_origin
          & iframe_data & iframe_origin & imgs & video
          & (_ & _ & _ & Hplain) & Hdesc & (Hu & Huo & Hi & Hio & Himgs & Hv)
          & Hnamed & Hseason & Hnone).
    run_pieces Hplain Hu Hi Hv.
    destruct (Hnamed eq_refl eq_refl) as (origin_des & Hdes & -> & _).
    vm_compute in Hdes. apply Ok_inj in Hdes. subst origin_des.
    vm_compute in Huo. apply Ok_inj in Huo. injection Huo as <- _.
    vm_compute in Hio. apply Ok_inj in Hio. subst iframe_origin.
    vm_compute in Himgs. apply Ok_inj in Himgs. subst imgs.
    rewrite Hdesc. reflexivity.
  - match goal with
    | |- exists it, ?run = _ /\ _ =>
        destruct run as [it|e] eqn:Hrun; [|vm_compute in Hrun; discriminate]
    end.
    exists it. split; [reflexivity|]. apply repost_prefix in Hrun
      as (content & content' & body & prefix & url_data & link1 & url_origin
          & iframe_data & iframe_origin & imgs & video
          & (_ & _ & _ & Hplain) & Hdesc & (Hu & Huo & Hi & Hio & Himgs & Hv)
          & Hnamed & Hseason & Hnone).
    run_pieces Hplain Hu Hi Hv.
    destruct (Hseason eq_refl eq_refl eq_refl) as (tail & -> & Htail & _).
    rewrite (Htail eq_refl) in Hdesc.
    vm_compute in Huo. apply Ok_inj in Huo. injection Huo as <- _.
    vm_compute in Hio. apply Ok_inj in Hio. subst iframe_origin.
    vm_compute in Himgs. apply Ok_inj in Himgs. subst imgs.
    rewrite Hdesc. reflexivity.
  - match goal with
    | |- exists it, ?run = _ /\ _ =>
        destruct run as [it|e] eqn:Hrun; [|vm_compute in Hrun; discriminate]
    end.
    exists it. split; [reflexivity|]. apply repost_prefix in Hrun
      as (content & content' & body & prefix & url_data & link1 & url_origin
          & iframe_data & iframe_origin & imgs & video
          & (_ & _ & _ & Hplain) & Hdesc & (Hu & Huo & Hi & Hio & Himgs & Hv)
          & Hnamed & Hseason & Hnone).
    run_pieces Hplain Hu Hi Hv.
    destruct (Hnone eq_refl) as (-> & -> & -> & Hg).
    vm_compute in Hg. apply Ok_inj in Hg. subst imgs.
    rewrite Hdesc. reflexivity.
Defined.


End Runs.

(** * Further properties *)

(** ** Line breaks (line 214) *)

Lemma lf_to_br_no_lf (s : string) : has_lf (lf_to_br s) = false.
Proof.
  induction s as [|c r IH]; simpl; [reflexivity|].
  destruct (Ascii.eqb c lf) eqn:Hc; simpl; [exact IH|].
  rewrite Hc. exact IH.
Qed.

Lemma string_length_ind (P : string -> Prop) :
  (forall s, (forall t, String.length t < String.length s -> P t) -> P s) ->
  forall s, P s.
Proof.
  intros Hstep s.
  assert (H : forall n t, String.length t < n -> P t).
  { induction n as [|n IH]; intros t Ht; [lia|].
    apply Hstep. intros u Hu. apply IH. lia. }
  apply (H (S (String.length s))). lia.
Qed.

Lemma crlf_to_br_without_lf (s : string) :
  has_lf s = false -> crlf_to_br s = s.
Proof.
  induction s as [|c r IH]; [reflexivity|].
  cbn [has_lf]. intros H. apply orb_false_iff in H as [Hc Hr].
  cbn [crlf_to_br]. destruct r as [|c' r']; [reflexivity|].
  cbn [has_lf] in Hr. apply orb_false_iff in Hr as [Hc' Hr'].
  rewrite Hc', andb_false_r. f_equal. apply IH.
  cbn [has_lf]. rewrite Hc', Hr'. reflexivity.
Qed.

Lemma lf_to_br_without_lf (s : string) :
  has_lf s = false -> lf_to_br s = s.
Proof.
  induction s as [|c r IH]; [reflexivity|].
  cbn [has_lf lf_to_br]. intros H. apply orb_false_iff in H as [Hc Hr].
  rewrite Hc, (IH Hr). reflexivity.
Qed.

(** X1.  After the two [replaceAll] calls of line 214 no line feed is left
    in the body, and a body without line feed comes out as it went in (a
    carriage return on its own is kept). *)
Theorem line_breaks_removed (s : string) :
  has_lf (lf_to_br (crlf_to_br s)) = false
  /\ (has_lf s = false -> lf_to_br (crlf_to_br s) = s).
Proof.
  split; [apply lf_to_br_no_lf|].
  intros H. rewrite (crlf_to_br_without_lf _ H). apply lf_to_br_without_lf, H.
Qed.

Lemma line_breaks_removed_witness :
  lf_to_br (crlf_to_br ("a" ++ String cr "b")) = "a" ++ String cr "b".
Proof.
  apply (proj2 (line_breaks_removed ("a" ++ String cr "b"))). reflexivity.
Defined.

Lemma crlf_to_br_step (c c' : ascii) (r : string) :
  crlf_to_br (String c (String c' r))
  = if Ascii.eqb c cr && Ascii.eqb c' lf
    then "<br>" ++ crlf_to_br r
    else String c (crlf_to_br (String c' r)).
Proof. reflexivity. Qed.

Lemma crlf_to_lf_step (c c' : ascii) (r : string) :
  crlf_to_lf (String c (String c' r))
  = if Ascii.eqb c cr && Ascii.eqb c' lf
    then String lf (crlf_to_lf r)
    else String c (crlf_to_lf (String c' r)).
Proof. reflexivity. Qed.

(** X2.  A CR LF pair and a bare LF give the same markup, also when a body
    mixes them: turning the pairs into bare line feeds first changes
    nothing. *)
Theorem crlf_same_as_lf (s : string) :
  lf_to_br (crlf_to_br s) = lf_to_br (crlf_to_lf s).
Proof.
  induction s as [s IH] using string_length_ind.
  destruct s as [|c r]; [reflexivity|].
  destruct r as [|c' r']; [reflexivity|].
  rewrite crlf_to_br_step, crlf_to_lf_step.
  destruct (Ascii.eqb c cr && Ascii.eqb c' lf) eqn:Hpair.
  - change (lf_to_br ("<br>" ++ crlf_to_br r'))
      with ("<br>" ++ lf_to_br (crlf_to_br r')).
    change (lf_to_br (String lf (crlf_to_lf r')))
      with ("<br>" ++ lf_to_br (crlf_to_lf r')).
    f_equal. apply IH. simpl. lia.
  - cbn [lf_to_br]. rewrite (IH (String c' r')) by (simpl; lia).
    reflexivity.
Qed.

(** ** The secure scheme of the first video source (line 195) *)

Lemma prefix_split (p s : string) :
  String.prefix p s = true -> exists r, s = p ++ r.
Proof.
  revert s. induction p as [|c p IH]; intros s; simpl.
  - intros _. exists s. reflexivity.
  - destruct s as [|c' s]; simpl; [discriminate|].
    destruct (ascii_dec c c') as [Heq|]; [subst c'|discriminate].
    intros H. destruct (IH _ H) as [r ->]. exists r. reflexivity.
Qed.

Lemma substring_all (s : string) : String.substring 0 (String.length s) s = s.
Proof. induction s as [|c s IH]; simpl; [reflexivity | now rewrite IH]. Qed.

Lemma force_https_http (r : string) : force_https ("http:" ++ r) = "https:" ++ r.
Proof.
  unfold force_https.
  replace (String.prefix "http:" ("http:" ++ r)) with true.
  - cbn [append String.length Nat.sub String.substring].
    rewrite Nat.sub_0_r, substring_all. reflexivity.
  - simpl. destruct r; reflexivity.
Qed.

(** X3.  The first source of the video gets the scheme [https:] when the
    URL starts with [http:], with the rest of the URL untouched; any other
    URL is left as it is, and doing it twice changes nothing more. *)
Theorem force_https_scheme (s : string) :
  (forall r, s = "http:" ++ r -> force_https s = "https:" ++ r)
  /\ (String.prefix "http:" s = false -> force_https s = s)
  /\ force_https (force_https s) = force_https s.
Proof.
  split; [|split].
  - intros r ->. apply force_https_http.
  - intros H. unfold force_https. rewrite H. reflexivity.
  - destruct (String.prefix "http:" s) eqn:Hp.
    + destruct (prefix_split _ _ Hp) as [r ->]. rewrite force_https_http.
      unfold force_https at 1.
      replace (String.prefix "http:" ("https:" ++ r)) with false by reflexivity.
      reflexivity.
    + unfold force_https. rewrite Hp, Hp. reflexivity.
Qed.

Lemma force_https_scheme_witness :
  force_https "http://v/1.mp4" = "https://v/1.mp4"
  /\ force_https "ftp://v/1.mp4" = "ftp://v/1.mp4".
Proof.
  split.
  - apply (proj1 (force_https_scheme "http://v/1.mp4") "//v/1.mp4"). reflexivity.
  - apply (proj1 (proj2 (force_https_scheme "ftp://v/1.mp4"))). reflexivity.
Defined.

(** ** Images (lines 146-175) *)

Lemma as_list_indexed (v : JV) (l : list JV) :
  as_list v = Some l ->
  (truthy v = true /\ indexed v = Ok l) \/ (truthy v = false /\ l = []).
Proof.
  destruct v as [| | |b|z|s|l'|fields]; simpl; intros H;
    try (injection H as <-; right; split; reflexivity).
  - destruct b; [discriminate|]. injection H as <-. right. split; reflexivity.
  - destruct (negb (z =? 0)%Z); [discriminate|].
    injection H as <-. right. split; reflexivity.
  - destruct (negb (s =? "")); [discriminate|].
    injection H as <-. right. split; reflexivity.
  - injection H as <-. left. split; reflexivity.
  - discriminate.
Qed.

Lemma mapM_Ok_map {A B} (f : A -> Res B) (g : A -> B) (l : list A) (bs : list B) :
  (forall a b, f a = Ok b -> b = g a) ->
  mapM f l = Ok bs -> bs = map g l.
Proof.
  intros Hfg. revert bs. induction l as [|a l IH]; intros bs; simpl.
  - intros H. apply Ok_inj in H. auto.
  - destruct (f a) as [b|e] eqn:Hfa; [|discriminate]. cbn [bind].
    destruct (mapM f l) as [bs'|e]; [|discriminate]. cbn [bind].
    intros H. apply Ok_inj in H. subst bs.
    rewrite (Hfg _ _ Hfa), (IH bs' eq_refl). reflexivity.
Qed.

Lemma mapM_TypeError {A B} (f : A -> Res B) (l : list A) :
  (forall a e, f a = Err e -> e = TypeError) ->
  Exists (fun a => is_ok (f a) = false) l ->
  mapM f l = Err TypeError.
Proof.
  intros Herr. induction l as [|a l IH]; intros H; [inversion H|].
  cbn [mapM]. destruct (f a) as [b|e] eqn:Hfa.
  - cbn [bind]. inversion H as [? ? Hbad|? ? Hrest]; subst.
    + rewrite Hfa in Hbad. discriminate.
    + rewrite (IH Hrest). reflexivity.
  - rewrite (Herr _ _ Hfa). reflexivity.
Qed.

Lemma img_Ok_inv (src : JV) (tag : string) : img src = Ok tag -> tag = img_tag src.
Proof. unfold img. intros H. apply printed_Ok_inv in H. tauto. Qed.

Lemma img_Err_inv (src : JV) (e : JsError) : img src = Err e -> e = TypeError.
Proof.
  unfold img, printed. destruct (forallb printable [src]); [discriminate|].
  intros H. injection H as <-. reflexivity.
Qed.

Lemma picture_Ok_inv (p : JV) (tag : string) :
  (s <- p ~> "img_src" ;; img s) = Ok tag -> tag = img_tag (optprop p "img_src").
Proof.
  intros H. apply bind_Ok_inv in H as (src & Hsrc & H).
  apply prop_Ok_inv in Hsrc as [_ ->]. apply img_Ok_inv, H.
Qed.

(** X4.  For a payload whose [pictures] and [image_urls] are arrays (or hold
    no value), what [getImgs] returns is the tags in the fixed order: one
    per picture, one per article cover, the video cover, the generic cover
    with its [unclipped] variant preferred, the campaign cover. *)
Theorem getImgs_order (data : JV) (pictures image_urls : list JV) (imgs : string) :
  getImgs data = Ok imgs ->
  as_list (optprop data "pictures") = Some pictures ->
  as_list (optprop data "image_urls") = Some image_urls ->
  imgs = concat_str (map (fun p => img_tag (optprop p "img_src")) pictures)
           ++ concat_str (map img_tag image_urls)
           ++ (if truthy (optprop data "pic") then img_tag (optprop data "pic") else "")
           ++ cover_tag data
           ++ sketch_cover_tag data.
Proof.
  intros H Hps Hus. unfold getImgs in H.
  apply bind_Ok_inv in H as (pics & Hpics & H).
  apply prop_Ok_inv in Hpics as [Hn ->].
  apply bind_Ok_inv in H as (imgs1 & H1 & H).
  apply bind_Ok_inv in H as (urls & Hurls & H).
  apply prop_Ok_inv in Hurls as [_ ->].
  apply bind_Ok_inv in H as (imgs2 & H2 & H).
  apply bind_Ok_inv in H as (pic & Hpic & H).
  apply prop_Ok_inv in Hpic as [_ ->].
  apply bind_Ok_inv in H as (imgs3 & H3 & H).
  apply bind_Ok_inv in H as (cover & Hcover & H).
  apply prop_Ok_inv in Hcover as [_ ->].
  apply bind_Ok_inv in H as (imgs4 & H4 & H).
  apply bind_Ok_inv in H as (sketch & Hsketch & H).
  apply prop_Ok_inv in Hsketch as [_ ->].
  apply bind_Ok_inv in H as (imgs5 & H5 & H).
  apply Ok_inj in H. subst imgs.
  assert (E1 : imgs1
               = concat_str (map (fun p => img_tag (optprop p "img_src")) pictures)).
  { destruct (as_list_indexed _ _ Hps) as [[Ht Hi]|[Hf ->]].
    - rewrite Ht, Hi in H1. cbn [bind] in H1.
      apply bind_Ok_inv in H1 as (tags & Htags & H1). apply Ok_inj in H1.
      subst imgs1. f_equal.
      apply (mapM_Ok_map _ _ _ _ picture_Ok_inv Htags).
    - rewrite Hf in H1. apply Ok_inj in H1. auto. }
  assert (E2 : imgs2 = concat_str (map img_tag image_urls)).
  { destruct (as_list_indexed _ _ Hus) as [[Ht Hi]|[Hf ->]].
    - rewrite Ht, Hi in H2. cbn [bind] in H2.
      apply bind_Ok_inv in H2 as (tags & Htags & H2). apply Ok_inj in H2.
      subst imgs2. f_equal. apply (mapM_Ok_map _ _ _ _ img_Ok_inv Htags).
    - rewrite Hf in H2. apply Ok_inj in H2. auto. }
  assert (E3 : imgs3 = if truthy (optprop data "pic")
                       then img_tag (optprop data "pic") else "").
  { destruct (truthy (optprop data "pic")).
    - apply img_Ok_inv, H3.
    - apply Ok_inj in H3. auto. }
  assert (E4 : imgs4 = cover_tag data).
  { unfold cover_tag. destruct (truthy (optprop data "cover")).
    - apply bind_Ok_inv in H4 as (unclipped & Hu & H4).
      apply prop_Ok_inv in Hu as [_ ->].
      destruct (truthy (optprop (optprop data "cover") "unclipped"));
        apply img_Ok_inv, H4.
    - apply Ok_inj in H4. auto. }
  assert (E5 : imgs5 = sketch_cover_tag data).
  { unfold sketch_cover_tag, wrapped.
    destruct (truthy (optprop data "sketch")) eqn:Hs.
    - apply bind_Ok_inv in H5 as (cover_url & Hc & H5).
      apply prop_Ok_inv in Hc as [_ ->].
      destruct (truthy (optprop (optprop data "sketch") "cover_url"));
        [apply img_Ok_inv, H5 | apply Ok_inj in H5; auto].
    - rewrite Hs. apply Ok_inj in H5. auto. }
  rewrite E1, E2, E3, E4, E5. reflexivity.
Qed.

Lemma getImgs_order_witness :
  getImgs (JObj [("pictures", JArr [JObj [("img_src", JStr "p1")];
                                    JObj [("img_src", JStr "p2")]]);
                 ("pic", JStr "v");
                 ("cover", JObj [("unclipped", JStr "u")]);
                 ("sketch", JObj [("cover_url", JStr "k")])])
  = Ok (img_tag (JStr "p1") ++ img_tag (JStr "p2") ++ img_tag (JStr "v")
          ++ img_tag (JStr "u") ++ img_tag (JStr "k")).
Proof.
  match goal with
  | |- ?run = _ => destruct run as [imgs|e] eqn:Hrun;
                   [|vm_compute in Hrun; discriminate]
  end.
  apply (getImgs_order _ [JObj [("img_src", JStr "p1")];
                          JObj [("img_src", JStr "p2")]] []) in Hrun;
    [|reflexivity|reflexivity].
  rewrite Hrun. reflexivity.
Defined.

(** X5.  A picture that is [null] makes [getImgs] throw: the loop reads
    [data.pictures[i].img_src] without a guard, so the other pictures and
    covers are lost with it. *)
Theorem getImgs_null_picture (data : JV) (pictures : list JV) :
  optprop data "pictures" = JArr pictures ->
  Exists (fun p => nullish p = true) pictures ->
  getImgs data = Err TypeError.
Proof.
  intros Hps Hbad.
  assert (Hn : nullish data = false).
  { destruct data; simpl in Hps; try discriminate; reflexivity. }
  unfold getImgs. rewrite (prop_defined _ _ Hn). cbn [bind].
  rewrite Hps. cbn [truthy indexed bind].
  rewrite mapM_TypeError; [reflexivity| |].
  - intros p e. unfold prop. destruct (nullish p); cbn [bind].
    + intros H. injection H as <-. reflexivity.
    + apply img_Err_inv.
  - apply Exists_impl with (2 := Hbad). intros p Hp.
    unfold prop. rewrite Hp. reflexivity.
Qed.

Lemma getImgs_null_picture_witness :
  getImgs (JObj [("pictures", JArr [JObj [("img_src", JStr "p1")]; JNull]);
                 ("pic", JStr "v")])
  = Err TypeError.
Proof.
  apply (getImgs_null_picture _ [JObj [("img_src", JStr "p1")]; JNull]);
    [reflexivity|]. apply Exists_cons_tl, Exists_cons_hd. reflexivity.
Defined.

(** ** Origin extractors (lines 142-144) *)

(** X6.  The origin author name is first-match-wins over [uname],
    [author.name], [upper.name], [user.uname] or else [user.name], and
    [owner.name], else the empty string; [uname] wins whatever else is
    there, and a [null] payload makes the extractor throw. *)
Theorem getOriginName_priority (data : JV) :
  (nullish data = false ->
   getOriginName data
   = Ok (first_truthy (origin_name_candidates data) (JStr "")))
  /\ (truthy (optprop data "uname") = true ->
      getOriginName data = Ok (optprop data "uname"))
  /\ (nullish data = true -> getOriginName data = Err TypeError).
Proof.
  split; [apply getOriginName_defined|]. split.
  - intros Hu.
    assert (Hn : nullish data = false).
    { destruct data; simpl in Hu; try discriminate; reflexivity. }
    rewrite (getOriginName_defined _ Hn). unfold origin_name_candidates.
    cbn [first_truthy]. rewrite Hu. reflexivity.
  - intros Hn. unfold getOriginName, prop. rewrite Hn. reflexivity.
Qed.

Lemma getOriginName_priority_witness :
  getOriginName (JObj [("user", JObj [("name", JStr "n"); ("uname", JStr "u")]);
                       ("owner", JObj [("name", JStr "o")])])
  = Ok (JStr "u")
  /\ getOriginName (JObj [("uname", JStr "me"); ("owner", JObj [("name", JStr "o")])])
     = Ok (JStr "me")
  /\ getOriginName JNull = Err TypeError.
Proof.
  split; [|split].
  - exact (proj1 (getOriginName_priority
                    (JObj [("user", JObj [("name", JStr "n"); ("uname", JStr "u")]);
                           ("owner", JObj [("name", JStr "o")])])) eq_refl).
  - exact (proj1 (proj2 (getOriginName_priority
                           (JObj [("uname", JStr "me");
                                  ("owner", JObj [("name", JStr "o")])]))) eq_refl).
  - exact (proj2 (proj2 (getOriginName_priority JNull)) eq_refl).
Defined.

(** X7.  The cross-reference of an origin is empty for a missing origin
    and for one without season and episode.  With a season title it is
    [//转发自: ] and the title, then [<br>] and the episode title when there
    is one; it throws when one of the two titles is an object. *)
Theorem getOriginDes_cases (data : JV) :
  (truthy data = false -> getOriginDes data = Ok (JStr ""))
  /\ (optprop data "apiSeasonInfo" = JUndef ->
      optprop data "index_title" = JUndef ->
      getOriginDes data = Ok (JStr ""))
  /\ (truthy (wrapped data "apiSeasonInfo" "title") = true ->
      truthy (optprop data "index_title") = true ->
      getOriginDes data
      = if printable (wrapped data "apiSeasonInfo" "title")
           && printable (optprop data "index_title")
        then Ok (JStr ("//转发自: "
                         ++ text_of (wrapped data "apiSeasonInfo" "title")
                         ++ "<br>" ++ text_of (optprop data "index_title")))
        else Err TypeError).
Proof.
  assert (Hfalsy : truthy data = false -> getOriginDes data = Ok (JStr "")).
  { intros Hf. unfold getOriginDes. rewrite pand_Ok, Hf, por_Ok, Hf. reflexivity. }
  split; [exact Hfalsy|]. split.
  - intros Hs He. destruct (truthy data) eqn:Ht; [|apply Hfalsy; reflexivity].
    pose proof (truthy_not_nullish _ Ht) as Hn.
    unfold getOriginDes.
    rewrite pand_Ok, Ht, (season_operand _ Hn), (episode_operand _ Hn).
    unfold wrapped. rewrite Hs, He. reflexivity.
  - intros Hs He.
    assert (Ht : truthy data = true).
    { unfold wrapped in Hs.
      destruct data; simpl in Hs; try discriminate; reflexivity. }
    pose proof (truthy_not_nullish _ Ht) as Hn.
    unfold getOriginDes.
    rewrite pand_Ok, Ht, (season_operand _ Hn), (episode_operand _ Hn), Hs, He.
    rewrite !printed_one.
    destruct (printable (wrapped data "apiSeasonInfo" "title")); [|reflexivity].
    destruct (printable (optprop data "index_title")); [|reflexivity].
    unfold padd. cbn [bind]. rewrite printed_defined by reflexivity.
    rewrite js_add_string, por_Ok. reflexivity.
Qed.

Lemma getOriginDes_cases_witness :
  getOriginDes (JObj [("title", JStr "plain")]) = Ok (JStr "")
  /\ getOriginDes (JObj [("apiSeasonInfo", JObj [("title", JStr "S")]);
                         ("index_title", JStr "E1")])
     = Ok (JStr "//转发自: S<br>E1")
  /\ getOriginDes (JObj [("apiSeasonInfo", JObj [("title", JStr "S")]);
                         ("index_title", JObj [("n", JNum 1)])])
     = Err TypeError
  /\ getOriginDes JNull = Ok (JStr "").
Proof.
  split; [|split; [|split]].
  - exact (proj1 (proj2 (getOriginDes_cases (JObj [("title", JStr "plain")])))
             eq_refl eq_refl).
  - exact (proj2 (proj2 (getOriginDes_cases
                           (JObj [("apiSeasonInfo", JObj [("title", JStr "S")]);
                                  ("index_title", JStr "E1")]))) eq_refl eq_refl).
  - exact (proj2 (proj2 (getOriginDes_cases
                           (JObj [("apiSeasonInfo", JObj [("title", JStr "S")]);
                                  ("index_title", JObj [("n", JNum 1)])])))
             eq_refl eq_refl).
  - exact (proj1 (getOriginDes_cases JNull) eq_refl).
Defined.

(** ** What the extractors return *)

Lemma por_default (r : Res JV) (v : JV) :
  (r <||> Ok (JStr "")) = Ok v -> truthy v = true \/ v = JStr "".
Proof.
  unfold por. destruct r as [x|e]; [|discriminate]. cbn [bind].
  destruct (truthy x) eqn:Hx; intros H; apply Ok_inj in H; subst v; auto.
Qed.

(** X8.  Whatever the payload, an extractor that returns gives a value that
    holds something or the empty string: never [undefined], [null], [NaN],
    [0] or [false], although the fields it reads may hold any of them. *)
Theorem extractors_never_falsy (data v : JV) :
  (getTitle data = Ok v -> truthy v = true \/ v = JStr "")
  /\ (getDes data = Ok v -> truthy v = true \/ v = JStr "")
  /\ (getOriginName data = Ok v -> truthy v = true \/ v = JStr "")
  /\ (getOriginDes data = Ok v -> truthy v = true \/ v = JStr "").
Proof.
  split; [|split; [|split]].
  - unfold getTitle. destruct (truthy data); [apply por_default|].
    intros H. apply Ok_inj in H. auto.
  - apply por_default.
  - apply por_default.
  - apply por_default.
Qed.

Lemma extractors_never_falsy_witness :
  truthy (JStr "D") = true \/ JStr "D" = JStr "".
Proof.
  exact (proj1 (proj2 (extractors_never_falsy
                         (JObj [("dynamic", JNum 0); ("desc", JNull);
                                ("description", JStr "D")]) (JStr "D"))) eq_refl).
Defined.

(** ** Emoji patterns (lines 217-222) *)

Lemma drop_escapes_escape (s : string) :
  drop_escapes (escape_optional_backslash s) = without_backslashes s.
Proof.
  induction s as [|c r IH]; [reflexivity|].
  cbn [escape_optional_backslash without_backslashes].
  destruct (Ascii.eqb c (ascii_of_nat 92)) eqn:Hc.
  - exact IH.
  - destruct (continuation c).
    + cbn [drop_escapes]. rewrite Hc, IH. reflexivity.
    + change (drop_escapes (bs ++ "?" ++ String c (escape_optional_backslash r)))
        with (drop_escapes (String c (escape_optional_backslash r))).
      cbn [drop_escapes]. rewrite Hc, IH. reflexivity.
Qed.

(** X9.  In the pattern built for an emoji token the only escapes are the
    inserted ones: reading every escape away gives back the token without
    its own backslashes, so each character of the token, brackets and other
    pattern syntax included, stands in the pattern unescaped. *)
Theorem emoji_pattern_shape (text : JV) :
  drop_escapes (emoji_pattern text) = without_backslashes (text_of text).
Proof.
  unfold emoji_pattern. apply (drop_escapes_escape (bs ++ text_of text)).
Qed.

Lemma bind_assoc {A B C} (r : Res A) (f : A -> Res B) (g : B -> Res C) :
  bind (bind r f) g = bind r (fun a => bind (f a) g).
Proof. destruct r; reflexivity. Qed.

(** X10.  The emoji loop runs the table in order on the text the entries
    before have left: substituting a table in two parts, one after the
    other, is substituting the whole, so a later token also matches inside
    the images put in for the earlier ones; an empty table leaves the text
    as it is. *)
Theorem substituteEmoji_app
        (regexp_replaceAll : string -> Res (string -> string -> Res string))
        (front back : list JV) (data_content : string) :
  substituteEmoji regexp_replaceAll (front ++ back)%list data_content
  = (replaced <- substituteEmoji regexp_replaceAll front data_content ;;
     substituteEmoji regexp_replaceAll back replaced)
  /\ substituteEmoji regexp_replaceAll [] data_content = Ok data_content.
Proof.
  split; [|reflexivity].
  revert data_content. induction front as [|e front IH]; intros data_content;
    [reflexivity|].
  cbn [app substituteEmoji]. rewrite !bind_assoc.
  destruct (e ~> "text") as [text|err]; [|reflexivity]. cbn [bind].
  rewrite !bind_assoc.
  destruct (printed [text] (emoji_pattern text)) as [source|err]; [|reflexivity].
  cbn [bind]. rewrite !bind_assoc.
  destruct (if astral (text_of text) then Err Unmodelled
            else regexp_replaceAll source) as [replaceAll|err]; [|reflexivity].
  cbn [bind]. rewrite !bind_assoc.
  destruct (e ~> "url") as [url|err]; [|reflexivity]. cbn [bind].
  rewrite !bind_assoc.
  destruct (printed [text; url] (emoji_img text url)) as [replacement|err];
    [|reflexivity].
  cbn [bind]. rewrite !bind_assoc.
  destruct (replaceAll data_content replacement) as [replaced|err];
    [|reflexivity].
  cbn [bind]. apply IH.
Qed.

(** ** The cookie (lines 119-122) *)

Lemma find_split {A} (f : A -> bool) (l : list A) (a : A) :
  find f l = Some a ->
  f a = true
  /\ exists before after,
       l = (before ++ a :: after)%list /\ Forall (fun x => f x = false) before.
Proof.
  induction l as [|x l IH]; simpl; [discriminate|].
  destruct (f x) eqn:Hx.
  - intros H. injection H as <-. split; [exact Hx|].
    exists [], l. split; [reflexivity | constructor].
  - intros H. destruct (IH H) as (Ha & before & after & -> & Hb).
    split; [exact Ha|]. exists (x :: before), after.
    split; [reflexivity | constructor; assumption].
Qed.

Lemma find_none_iff {A} (f : A -> bool) (l : list A) :
  find f l = None <-> Forall (fun x => f x = false) l.
Proof.
  induction l as [|x l IH]; simpl.
  - split; [constructor | reflexivity].
  - destruct (f x) eqn:Hx.
    + split; [discriminate|]. intros H. inversion H; congruence.
    + rewrite IH. split.
      * intros H. constructor; assumption.
      * intros H. inversion H; assumption.
Qed.

(** X11.  The handler gives up exactly when no configured cookie holds a
    value; otherwise it takes the first cookie that does, skipping the empty
    ones before it. *)
Theorem select_cookie_first (cookies : list JV) :
  (select_cookie cookies = None
   <-> Forall (fun c => truthy c = false) cookies)
  /\ (forall cookie,
        select_cookie cookies = Some cookie ->
        truthy cookie = true
        /\ exists before after,
             cookies = (before ++ cookie :: after)%list
             /\ Forall (fun c => truthy c = false) before).
Proof.
  unfold select_cookie. split.
  - rewrite <- find_none_iff.
    destruct (find truthy cookies) as [c|] eqn:Hf; [|tauto].
    destruct (find_split _ _ _ Hf) as [Hc _]. rewrite Hc.
    split; discriminate.
  - intros cookie H.
    destruct (find truthy cookies) as [c|] eqn:Hf; [|discriminate].
    destruct (find_split _ _ _ Hf) as [Hc Hsplit]. rewrite Hc in H.
    injection H as <-. split; assumption.
Qed.

Lemma select_cookie_first_witness :
  truthy (JStr "SESSDATA=b") = true
  /\ exists before after,
       [JStr ""; JUndef; JStr "SESSDATA=b"; JStr "SESSDATA=c"]
       = (before ++ JStr "SESSDATA=b" :: after)%list
       /\ Forall (fun c => truthy c = false) before.
Proof.
  exact (proj2 (select_cookie_first
                  [JStr ""; JUndef; JStr "SESSDATA=b"; JStr "SESSDATA=c"])
               (JStr "SESSDATA=b") eq_refl).
Defined.



(** ** Further properties of the handler *)

Section FurtherHandlerProperties.

Variable JSONbig_parse : JV -> Res JV.
Variable unescape : string -> string.
Variable regexp_replaceAll : string -> Res (string -> string -> Res string).
Variable utils_iframe : JV -> Res string.
Variable getArticleDataFromCvid : JV -> string -> Res JV.
Variable Date : Type.
Variable parseDate : JV -> Res Date.
Variable uid : string.
Variables showEmoji disableEmbed displayArticle useAvid directLink : bool.

Local Abbreviation getUrl := (getUrl useAvid directLink).
Local Abbreviation getIframe := (getIframe utils_iframe disableEmbed).
Local Abbreviation videoHTML := (videoHTML unescape).
Local Abbreviation body_text := (body_text regexp_replaceAll showEmoji).
Local Abbreviation full_article :=
  (full_article getArticleDataFromCvid uid displayArticle).
Local Abbreviation normalize :=
  (normalize unescape regexp_replaceAll utils_iframe getArticleDataFromCvid
             Date parseDate uid showEmoji disableEmbed displayArticle
             useAvid directLink).
Local Abbreviation handler_item :=
  (handler_item JSONbig_parse unescape regexp_replaceAll utils_iframe
                getArticleDataFromCvid Date parseDate uid showEmoji
                disableEmbed displayArticle useAvid directLink).
Local Abbreviation handler_items :=
  (handler_items JSONbig_parse unescape regexp_replaceAll utils_iframe
                 getArticleDataFromCvid Date parseDate uid showEmoji
                 disableEmbed displayArticle useAvid directLink).
Local Abbreviation handler :=
  (handler JSONbig_parse unescape regexp_replaceAll utils_iframe
           getArticleDataFromCvid Date parseDate uid showEmoji
           disableEmbed displayArticle useAvid directLink).

(** Every step of a normalisation that returns an item. *)
Lemma normalize_Ok_all (owner item data origin : JV) (it : Item Date) :
  normalize owner item data origin = Ok it ->
  exists imgs video link0 data_content data_content' ttl body originName
         url_data link1 url_origin link2 iframe_data iframe_origin date,
    imgHTML data origin = Ok imgs
    /\ videoHTML data = Ok video
    /\ dynamic_link item data = Ok link0
    /\ body_text item data = Ok data_content
    /\ full_article data data_content = Ok data_content'
    /\ getTitle data = Ok ttl
    /\ (Ok data_content' <||> getDes data) = Ok body
    /\ origin_prefix origin = Ok originName
    /\ printable body = true
    /\ getUrl item data link0 = Ok (url_data, link1)
    /\ getUrl item origin link1 = Ok (url_origin, link2)
    /\ getIframe data = Ok iframe_data
    /\ getIframe origin = Ok iframe_origin
    /\ nullish item = false
    /\ (if truthy (optprop (optprop item "desc") "timestamp")
        then d <- parseDate (optprop (optprop item "desc") "timestamp") ;;
             Ok (Some d)
        else Ok None) = Ok date
    /\ it = mkItem ttl
                   (assemble body originName url_data url_origin iframe_data
                             iframe_origin imgs video)
                   date link2 owner.
Proof.
  intros H. unfold Dynamic.normalize in H.
  apply bind_Ok_inv in H as (imgs & Himgs & H).
  apply bind_Ok_inv in H as (video & Hvideo & H).
  apply bind_Ok_inv in H as (link0 & Hlink0 & H).
  apply bind_Ok_inv in H as (dc & Hdc & H).
  apply bind_Ok_inv in H as (dc' & Hdc' & H).
  apply bind_Ok_inv in H as (ttl & Httl & H).
  apply bind_Ok_inv in H as (body & Hbody & H).
  apply bind_Ok_inv in H as (originName & Hprefix & H).
  apply bind_Ok_inv in H as (body' & Hprint & H).
  apply printed_Ok_inv in Hprint as [Hprint ->].
  apply bind_Ok_inv in H as ([url_data link1] & Hdata & H).
  apply bind_Ok_inv in H as ([url_origin link2] & Horigin & H).
  apply bind_Ok_inv in H as (iframe_data & Hiframe & H).
  apply bind_Ok_inv in H as (iframe_origin & Hiframe_o & H).
  apply bind_Ok_inv in H as (desc & Hdesc & H).
  apply prop_Ok_inv in Hdesc as [Hn ->].
  apply bind_Ok_inv in H as (date & Hdate & H).
  apply Ok_inj in H. subst it.
  cbn [forallb] in Hprint. rewrite andb_true_r in Hprint.
  exists imgs, video, link0, dc, dc', ttl, body, originName, url_data, link1,
    url_origin, link2, iframe_data, iframe_origin, date.
  repeat (split; [assumption|]). reflexivity.
Qed.


(** *** Fields that cannot be printed *)

(** X13.  A field that holds an object where the handler prints text makes
    the entry fail: the objects of json-bigint have no [toString].  So it is
    for the video cover [pic] in [getImgs] and for the payload's
    [dynamic_id], whatever else the entry holds. *)
Theorem object_fields_throw (owner item data origin : JV)
        (fields : list (string * JV)) :
  (optprop data "pic" = JObj fields -> is_ok (getImgs data) = false)
  /\ (optprop data "dynamic_id" = JObj fields ->
      is_ok (normalize owner item data origin) = false).
Proof.
  split.
  - intros Hpic. unfold getImgs.
    apply is_ok_bind; intros pictures _. apply is_ok_bind; intros imgs1 _.
    apply is_ok_bind; intros image_urls _. apply is_ok_bind; intros imgs2 _.
    apply is_ok_bind; intros pic Hp. apply prop_Ok_inv in Hp as [_ ->].
    rewrite Hpic. reflexivity.
  - intros Hid. unfold Dynamic.normalize.
    apply is_ok_bind; intros imgs _. apply is_ok_bind; intros video _.
    unfold dynamic_link.
    apply is_ok_bind; intros link0 Hlink.
    apply bind_Ok_inv in Hlink as (dynamic_id & Hd & Hlink).
    apply prop_Ok_inv in Hd as [_ ->]. rewrite Hid in Hlink. discriminate.
Qed.

(** *** The feed (lines 131-137 and 283-289) *)



(** X15.  An empty batch with no cached name is no error: the feed has no
    item and its title starts with the text [undefined]. *)
Theorem empty_feed (cached_name cached_face : JV) :
  nullish cached_name = true ->
  handler cached_name cached_face (JArr [])
  = Ok (mkFeed "undefined 的 bilibili 动态"
               ("https://space.bilibili.com/" ++ uid ++ "/dynamic")
               "undefined 的 bilibili 动态"
               (if nullish cached_face then JUndef else cached_face) []).
Proof.
  intros Hc. unfold Dynamic.handler, resolve_author, resolve_face.
  rewrite Hc. cbn [first_profile nth optprop nullish bind].
  unfold Dynamic.handler_items. cbn [Dynamic.failures filter List.length Nat.ltb
                                       Nat.leb mapM bind].
  unfold feed_title_of. cbn [printable text_of bind].
  destruct (nullish cached_face); reflexivity.
Qed.

End FurtherHandlerProperties.

(** ** The embed switch *)

Section EmbedSwitch.

Variable unescape : string -> string.
Variable regexp_replaceAll : string -> Res (string -> string -> Res string).
Variable utils_iframe : JV -> Res string.
Variable getArticleDataFromCvid : JV -> string -> Res JV.
Variable Date : Type.
Variable parseDate : JV -> Res Date.
Variable uid : string.
Variables showEmoji displayArticle useAvid directLink : bool.

Local Abbreviation normalize_with disableEmbed :=
  (normalize unescape regexp_replaceAll utils_iframe getArticleDataFromCvid
             Date parseDate uid showEmoji disableEmbed displayArticle
             useAvid directLink).

(** X16.  Setting [disableEmbed] drops the two embed fragments from the
    description and changes nothing else: an entry that normalises without
    it normalises with it, to the same title, permalink and date, and to
    the same description without the embeds. *)
Theorem disableEmbed_only_drops_embeds (owner item data origin : JV)
        (it : Item Date) :
  normalize_with false owner item data origin = Ok it ->
  exists it',
    normalize_with true owner item data origin = Ok it'
    /\ title it' = title it /\ link it' = link it /\ pubDate it' = pubDate it
    /\ exists body prefix url_data url_origin iframe_data iframe_origin imgs video,
         getIframe utils_iframe false data = Ok iframe_data
         /\ getIframe utils_iframe false origin = Ok iframe_origin
         /\ description it
            = assemble body prefix url_data url_origin iframe_data iframe_origin
                       imgs video
         /\ description it'
            = assemble body prefix url_data url_origin "" "" imgs video.
Proof.
  intros H. apply normalize_Ok_all in H.
  destruct H as (imgs & video & link0 & dc & dc' & ttl & body & originName
                 & url_data & link1 & url_origin & link2 & iframe_data
                 & iframe_origin & date & Himgs & Hvideo & Hlink0 & Hdc & Hdc'
                 & Httl & Hbody & Hprefix & Hprint & Hdata & Horigin & Hiframe
                 & Hiframe_o & Hn & Hdate & ->).
  exists (mkItem ttl
                 (assemble body originName url_data url_origin "" "" imgs video)
                 date link2 owner).
  split.
  - unfold Dynamic.normalize.
    rewrite Himgs. cbn [bind]. rewrite Hvideo. cbn [bind].
    rewrite Hlink0. cbn [bind]. rewrite Hdc. cbn [bind].
    rewrite Hdc'. cbn [bind]. rewrite Httl. cbn [bind].
    rewrite Hbody. cbn [bind]. rewrite Hprefix. cbn [bind].
    rewrite printed_one, Hprint. cbn [bind].
    rewrite Hdata. cbn [bind]. rewrite Horigin. cbn [bind].
    unfold Dynamic.getIframe at 1 2. cbn [bind].
    rewrite (prop_defined _ _ Hn). cbn [bind]. rewrite Hdate. reflexivity.
  - cbn [title link pubDate description].
    split; [reflexivity|]. split; [reflexivity|]. split; [reflexivity|].
    exists body, originName, url_data, url_origin, iframe_data, iframe_origin,
      imgs, video.
    repeat (split; [assumption || reflexivity|]). reflexivity.
Qed.

End EmbedSwitch.

(** ** Further runs *)

Section FurtherRuns.

Import Runtime Samples.


Lemma object_fields_throw_witness :
  is_ok (getImgs (JObj [("pic", JObj [("src", JStr "v.png")])])) = false
  /\ is_ok (run_normalize false false false false false entry_plain
                          (JObj [("content", JStr "x");
                                 ("dynamic_id", JObj [("id", JNum 1)])]) JNull)
     = false.
Proof.
  unfold run_normalize. split.
  - exact (proj1 (object_fields_throw
                    unescape regexp_replaceAll utils_iframe article_down
                    string parseDate "2267573" false false false false false
                    JNull JNull (JObj [("pic", JObj [("src", JStr "v.png")])])
                    JNull [("src", JStr "v.png")]) eq_refl).
  - exact (proj2 (object_fields_throw
                    unescape regexp_replaceAll utils_iframe article_down
                    string parseDate "2267573" false false false false false
                    (JStr "up") entry_plain
                    (JObj [("content", JStr "x");
                           ("dynamic_id", JObj [("id", JNum 1)])])
                    JNull [("id", JNum 1)]) eq_refl).
Defined.


Lemma empty_feed_witness :
  run_handler false false false false false JNull (JStr "f.png") (JArr [])
  = Ok (mkFeed "undefined 的 bilibili 动态"
               "https://space.bilibili.com/2267573/dynamic"
               "undefined 的 bilibili 动态" (JStr "f.png") []).
Proof.
  unfold run_handler.
  apply (empty_feed JSONbig_parse unescape regexp_replaceAll utils_iframe
                    article_down string parseDate "2267573"
                    false false false false false JNull (JStr "f.png")).
  reflexivity.
Defined.

Lemma disableEmbed_only_drops_embeds_witness :
  exists it it',
    run_normalize false false false false false entry_repost data_live origin_video
    = Ok it
    /\ run_normalize false true false false false entry_repost data_live origin_video
       = Ok it'
    /\ title it' = title it /\ link it' = link it.
Proof.
  unfold run_normalize.
  match goal with
  | |- exists it it', ?run = _ /\ _ =>
      destruct run as [it|e] eqn:Hrun; [|vm_compute in Hrun; discriminate]
  end.
  apply disableEmbed_only_drops_embeds in Hrun
    as (it' & Hrun' & Htitle & Hlink & _).
  exists it, it'. repeat split; assumption.
Defined.

End FurtherRuns.
